(** * ESP8266_HTU21D_OTA: the connection-and-scheduling core of the sketch

    A shallow embedding of the Arduino sketch that polls an HTU21D sensor,
    publishes the readings over MQTT and takes commands from a topic.  The
    sketch keeps its state in globals and talks to four collaborators (WiFi,
    the MQTT client, the sensor driver, the serial port); here the globals and
    the board are one record, [World], the collaborators are the oracles of
    [Env], and every function of the sketch is a computation in the monad [M],
    which threads the world and stops at a device restart or at an operation
    C++ leaves undefined.

    The repository holds the sketch in more than one revision.  The
    definitions at top level follow the revision that comes with the header
    [ESP8266_HTU21D_OTA.h]; [Module Prior] holds the functions of the
    header-less revision that differ from it. *)

From Stdlib Require Import ZArith String Ascii List Bool Lia DecimalString.
From Stdlib Require Import Floats.SpecFloat.
From coqutil Require Import Datatypes.RecordSetters.
Import ListNotations.
Import RecordSetters.TriangleBracketNotations.

Local Open Scope string_scope.
Local Open Scope Z_scope.

(** ** Machine arithmetic *)

(** [unsigned int], [unsigned long] and [size_t] are 32 bits wide on the
    ESP8266 and on the ESP32; their arithmetic wraps around. *)
Definition u32 (z : Z) : Z := z mod 2 ^ 32.

(** [byte] is [uint8_t]. *)
Definition u8 (z : Z) : Z := z mod 2 ^ 8.

(** A data pointer takes four bytes on both boards, so [sizeof] of an array
    of [n] pointers is [4 * n]. *)
Definition SIZEOF_POINTER : Z := 4.

Definition sizeof_pointer_array {A : Type} (a : list A) : Z :=
  SIZEOF_POINTER * Z.of_nat (length a).

(** ** [float]: IEEE 754 binary32 *)

Module F32.

Definition float : Type := spec_float.

Definition prec : Z := 24.
Definition emax : Z := 128.

(** The conversion of an [int] operand to [float]. *)
Definition of_int (z : Z) : float := binary_normalize prec emax z 0 false.

Definition nan : float := S754_nan.

Definition is_nan (x : float) : bool :=
  match x with S754_nan => true | _ => false end.

Definition lt (x y : float) : bool := SFltb x y.
Definition le (x y : float) : bool := SFleb x y.
Definition gt (x y : float) : bool := SFltb y x.
Definition ge (x y : float) : bool := SFleb y x.

Definition add (x y : float) : float := SFadd prec emax x y.
Definition mul (x y : float) : float := SFmul prec emax x y.
Definition div (x y : float) : float := SFdiv prec emax x y.

End F32.

(** ** Text *)

Definition dquote : string := String (ascii_of_nat 34) EmptyString.

(** [%d] and [%ld]. *)
Definition decimal (z : Z) : string := NilZero.string_of_int (Z.to_int z).

(** [%03ld] of a number that is not negative. *)
Definition decimal3 (z : Z) : string :=
  if z <? 10 then "00" ++ decimal z
  else if z <? 100 then "0" ++ decimal z
  else decimal z.

(** [snprintf( buffer, size, ... )] keeps at most [size - 1] characters. *)
Definition snprintf (size : nat) (text : string) : string :=
  substring 0 (size - 1) text.

(** ** What the sketch sends out *)

(** The arguments of a [Serial.print] or of a [printf] format; [Doc] is the
    text [serializeJsonPretty] makes of a JSON document, given by the
    members of the document. *)
#[warnings="-register-all"] Inductive arg : Type :=
| Str (s : string)
| Int (z : Z)
| Flt (x : F32.float)
| Doc (members : list (string * arg)).

(** The payload of an MQTT message: a text, a number rendered by [ltoa] in
    base 10 or by [dtostrf] with a width and a precision, or a serialized
    JSON document. *)
Inductive payload : Type :=
| Text (s : string)
| Ltoa (z : Z)
| Dtostrf (x : F32.float) (width precision : Z)
| Json (members : list (string * arg)).

Inductive event : Type :=
| Serial_print (a : arg)
| Serial_println (a : arg)
| Serial_printf (format : string) (args : list arg)
| WiFi_mode_STA
| WiFi_begin (ssid password : string)
| Mqtt_publish (topic : string) (message : payload)
| Mqtt_subscribe (topic : string)
| OTA_handle
| Serial_begin (baud : Z)
| Wire_begin
| PinMode_OUTPUT (pin : Z)
| Htu21d_heatOff
| Mqtt_setServer (broker : string) (port : Z)
| Mqtt_setCallback
| OTA_setHostname (name : string)
| OTA_onStart
| OTA_onEnd
| OTA_onProgress
| OTA_onError
| OTA_begin.

(** ** [dtostrf]

    [dtostrf( x, 1, 3, buffer )] writes [x] as [[-]d.ddd]: a sign for a
    negative number, the digits of the integer part, the point and three
    decimals, then a terminating zero; the caller provides the storage.
    [thousandths] is the magnitude in thousandths, rounded to nearest; an
    infinity and a NaN are written in three letters.  The sketch depends on
    the length only through the question whether the text fits the
    buffer. *)

Definition thousandths (m : positive) (e : Z) : Z :=
  if 0 <=? e then Z.pos m * 2 ^ e * 1000
  else (2 * (Z.pos m * 1000) + 2 ^ (- e)) / (2 * 2 ^ (- e)).

Definition dtostrf_length (x : F32.float) : Z :=
  match x with
  | S754_zero _ => 5
  | S754_infinity _ => 3
  | S754_nan => 3
  | S754_finite negative m e =>
      (if negative then 1 else 0)
      + Z.of_nat (String.length (decimal (thousandths m e / 1000))) + 4
  end.

(** ** The constants of the sketch

    [telemetryInterval], [ledBlinkInterval], [wifiConnectionTimeout],
    [mqttReconnectDelay] and [mqttReconnectCooldown] are globals that no
    statement of the sketch assigns. *)

Definition sketchFile : string := "ESP8266_HTU21D_OTA.ino".
Definition notes : string := "Adam's ESP8266 with HTU21D and OTA".
Definition hostname : string := "adam-8266-htu21".
Definition mqttCommandTopic : string := "AdamsDesk/8266/command".
Definition sketchTopic : string := "AdamsDesk/8266/sketch".
Definition macTopic : string := "AdamsDesk/8266/mac".
Definition ipTopic : string := "AdamsDesk/8266/ip".
Definition rssiTopic : string := "AdamsDesk/8266/rssi".
Definition publishCountTopic : string := "AdamsDesk/8266/publishCount".
Definition notesTopic : string := "AdamsDesk/8266/notes".
Definition tempCTopic : string := "AdamsDesk/8266/HTU21D/tempC".
Definition tempFTopic : string := "AdamsDesk/8266/HTU21D/tempF".
Definition humidityTopic : string := "AdamsDesk/8266/HTU21D/humidity".
Definition mqttTopic : string := "espWeather".
Definition mqttStatsTopic : string := "espStats".
Definition BUFFER_SIZE : Z := 512.
Definition MILLIS_IN_SEC : Z := 1000.
Definition LED_PIN : Z := 2.
Definition telemetryInterval : Z := 10 * MILLIS_IN_SEC.
Definition ledBlinkInterval : Z := 200.
Definition wifiConnectionTimeout : Z := 10 * MILLIS_IN_SEC.
Definition mqttReconnectDelay : Z := 5 * MILLIS_IN_SEC.
Definition mqttReconnectCooldown : Z := 20000.

(** [WiFi.status()] and [mqttClient.state()] codes the sketch tests. *)
Definition WL_CONNECTED : Z := 3.
Definition MQTT_CONNECTED : Z := 0.

(** ** The world: the globals of the sketch and the board *)

Record World : Type := {
  consecutiveBadTemp : Z;
  consecutiveBadHumidity : Z;
  networkIndex : Z;
  publishInterval : Z;
  lastPublishTime : Z;
  lastPollTime : Z;
  lastLedBlinkTime : Z;
  publishCount : Z;
  lastMqttConnectionTime : Z;
  tempC : F32.float;
  tempF : F32.float;
  humidity : F32.float;
  rssi : Z;
  macAddress : string;
  ipAddress : string;
  (** what [millis()] returns *)
  clock : Z;
  (** the level of [LED_PIN]; the LED is lit when it is 0 *)
  ledPin : Z;
  (** everything sent to the serial port, the radio and the broker so far *)
  trace : list event
}.

(** The globals as their initialisers leave them; [tempC], [tempF],
    [humidity] and [rssi] have static storage and start at zero. *)
Definition boot : World := {|
  consecutiveBadTemp := 0;
  consecutiveBadHumidity := 0;
  networkIndex := 2112;
  publishInterval := 60 * MILLIS_IN_SEC;
  lastPublishTime := 0;
  lastPollTime := 0;
  lastLedBlinkTime := 0;
  publishCount := 0;
  lastMqttConnectionTime := 0;
  tempC := S754_zero false;
  tempF := S754_zero false;
  humidity := S754_zero false;
  rssi := 0;
  macAddress := "";
  ipAddress := "";
  clock := 0;
  ledPin := 0;
  trace := []
|}.

(** ** The collaborators

    The document ArduinoJson decodes from a payload: [doc_command] is what
    [doc["command"]] converts to as a [const char *] ([None] is the null
    pointer the library returns when the member is absent or is not a
    string), [doc_value] is what [doc["value"]] converts to as an
    [unsigned long] (0 when the member is absent). *)
Record JsonDocument : Type := {
  doc_command : option string;
  doc_value : Z
}.

(** The credential arrays come from [privateInfo.h], which the repository
    leaves out.  The answers of the collaborators depend on the time of the
    call; [latency] is how long a blocking call begun at that time takes.
    [Serial_ready] is what [if( !Serial )] tests, [WiFi_macAddress] is the
    text of [WiFi.macAddress()], and [rightToLeft] says in which order the
    compiler evaluates the arguments of a call, which C++ leaves to it. *)
Record Env : Type := {
  wifiSsidArray : list string;
  wifiPassArray : list string;
  mqttBrokerArray : list string;
  mqttPortArray : list Z;
  WiFi_status : Z -> Z;
  WiFi_mode : Z -> bool;
  WiFi_scanNetworks : Z -> list string;
  WiFi_SSID : Z -> string;
  WiFi_RSSI : Z -> Z;
  WiFi_localIP : Z -> Z * Z * Z * Z;
  htu21d_read : Z -> option (F32.float * F32.float);
  mqtt_connected : Z -> bool;
  mqtt_state : Z -> Z;
  mqtt_connect : string -> Z -> bool;
  mqtt_setBufferSize : Z -> Z -> bool;
  mqtt_subscribe : string -> Z -> bool;
  mqtt_publish : string -> Z -> bool;
  mqtt_inbound : Z -> option (string * string * JsonDocument);
  random : Z -> Z -> Z;
  latency : Z -> Z;
  Serial_ready : Z -> bool;
  WiFi_macAddress : string;
  htu21d_begin : Z -> bool;
  htu21d_isConnected : Z -> bool;
  htu21d_getStatus : Z -> Z;
  htu21d_getFirmwareVersion : Z -> Z;
  htu21d_getResolution : Z -> Z;
  htu21d_isHeaterOn : Z -> bool;
  rightToLeft : bool
}.

(** ** Computations *)

Inductive fault : Type :=
| NullDereference (pointer : string)
| IndexOutOfBounds (array : string) (index : Z).

(** A call returns, or the device restarts ([ESP.restart()] does not come
    back), or the call runs into undefined behaviour. *)
Inductive outcome (A : Type) : Type :=
| Returned (a : A) (w : World)
| Restarted (w : World)
| Undefined (f : fault) (w : World).

Arguments Returned {A} a w.
Arguments Restarted {A} w.
Arguments Undefined {A} f w.

Definition world_of {A : Type} (o : outcome A) : World :=
  match o with
  | Returned _ w => w
  | Restarted w => w
  | Undefined _ w => w
  end.

Definition restarts {A : Type} (o : outcome A) : bool :=
  match o with Restarted _ => true | _ => false end.

Definition returns {A : Type} (o : outcome A) : bool :=
  match o with Returned _ _ => true | _ => false end.

Definition fault_of {A : Type} (o : outcome A) : option fault :=
  match o with Undefined f _ => Some f | _ => None end.

Definition M (A : Type) : Type := World -> outcome A.

Definition ret {A : Type} (a : A) : M A := fun w => Returned a w.

Definition bind {A B : Type} (m : M A) (k : A -> M B) : M B :=
  fun w =>
    match m w with
    | Returned a w' => k a w'
    | Restarted w' => Restarted w'
    | Undefined f w' => Undefined f w'
    end.

Declare Scope sketch_scope.
Delimit Scope sketch_scope with sketch.
Notation "x <- c ;; k" := (bind c (fun x => k))
  (at level 61, c at next level, right associativity) : sketch_scope.
Notation "c ;; k" := (bind c (fun _ => k))
  (at level 61, right associativity) : sketch_scope.
Local Open Scope sketch_scope.

Definition skip : M unit := ret tt.

(** Read a global. *)
Definition load {A : Type} (global : World -> A) : M A :=
  fun w => Returned (global w) w.

(** Assign globals. *)
Definition store (f : World -> World) : M unit :=
  fun w => Returned tt (f w).

Definition emit (e : event) : M unit :=
  store (fun w => w <| trace := (trace w ++ [e])%list |>).

Definition ESP_restart {A : Type} : M A := fun w => Restarted w.

Definition undefined {A : Type} (f : fault) : M A := fun w => Undefined f w.

(** [a[ i ]] on a C array: reading past the end is undefined. *)
Definition subscript {A : Type} (name : string) (a : list A) (i : Z) : M A :=
  match nth_error a (Z.to_nat i) with
  | Some x => ret x
  | None => undefined (IndexOutOfBounds name i)
  end.

Definition millis : M Z := load clock.

Definition delay (ms : Z) : M unit :=
  store (fun w => w <| clock := u32 (clock w + ms) |>).

(** One iteration after the other; [gaps] gives, for each iteration, the
    time that passes from its end to the beginning of the next one. *)
Fixpoint iterations (turn : M unit) (gaps : list Z) : M unit :=
  match gaps with
  | [] => skip
  | gap :: rest => turn;; delay gap;; iterations turn rest
  end.

Definition digitalWrite (pin level : Z) : M unit :=
  if pin =? LED_PIN then store (fun w => w <| ledPin := level |>) else skip.

Definition digitalRead (pin : Z) : M Z :=
  if pin =? LED_PIN then load ledPin else ret 0.

(** [dtostrf( x, 1, 3, buffer )] into [char buffer[size]]: the text and its
    terminating zero take [dtostrf_length x + 1] bytes, and a write past the
    end of the buffer is undefined. *)
Definition dtostrf (x : F32.float) (size : Z) : M unit :=
  if dtostrf_length x <? size then skip
  else undefined (IndexOutOfBounds "buffer" size).

Definition Serial_Print (text : string) : M unit := emit (Serial_print (Str text)).
Definition Serial_PrintNum (n : Z) : M unit := emit (Serial_print (Int n)).
Definition Serial_Println (text : string) : M unit := emit (Serial_println (Str text)).
Definition Serial_PrintlnNum (n : Z) : M unit := emit (Serial_println (Int n)).
Definition Serial_Printf (format : string) (args : list arg) : M unit :=
  emit (Serial_printf format args).

(** The test the sketch writes for each of its timers, in [loop()] for the
    poll, the publish and the LED and in [mqttMultiConnect()] for the
    reconnect cooldown:
    [last == 0 || ( now > interval && ( now - interval ) > last )],
    on [unsigned long] operands. *)
Definition due (last now interval : Z) : bool :=
  (last =? 0) || ((now >? interval) && (u32 (now - interval) >? last)).

(** ** The sketch *)

Section Sketch.

Variable env : Env.

(** *** Calls to the collaborators *)

(** A call that blocks: the clock moves on by its latency. *)
Definition blocking : M unit :=
  store (fun w => w <| clock := u32 (clock w + latency env (clock w)) |>).

Definition WiFi_Status : M Z :=
  load (fun w => WiFi_status env (clock w)).

Definition mqttClient_connected : M bool :=
  load (fun w => mqtt_connected env (clock w)).

Definition mqttClient_state : M Z :=
  load (fun w => mqtt_state env (clock w)).

Definition mqttClient_publish (topic : string) (message : payload) : M bool :=
  ok <- load (fun w => mqtt_publish env topic (clock w));;
  emit (Mqtt_publish topic message);;
  ret ok.

(** Two array reads at the same index among the arguments of one call, in
    the order the compiler takes. *)
Definition subscripts {A B : Type} (nameA : string) (a : list A)
           (nameB : string) (b : list B) (i : Z) : M (A * B) :=
  if rightToLeft env then
    y <- subscript nameB b i;;
    x <- subscript nameA a i;;
    ret (x, y)
  else
    x <- subscript nameA a i;;
    y <- subscript nameB b i;;
    ret (x, y).

(** *** toggleLED *)

Definition toggleLED : M unit :=
  level <- digitalRead LED_PIN;;
  if negb (level =? 1) then digitalWrite LED_PIN 1
  else digitalWrite LED_PIN 0.

(** *** readTelemetry *)

Definition readTelemetry : M unit :=
  signal <- load (fun w => WiFi_RSSI env (clock w));;
  store (fun w => w <| rssi := signal |>);;
  reading <- load (fun w => htu21d_read env (clock w));;
  blocking;;
  match reading with
  | Some (temporaryTemperature, temporaryHumidity) =>
      (if F32.gt temporaryTemperature (F32.of_int (-30))
          || F32.lt temporaryTemperature (F32.of_int 90)
       then
         store (fun w => w <| tempC := temporaryTemperature |>);;
         store (fun w => w <| tempF :=
           F32.add (F32.div (F32.mul (tempC w) (F32.of_int 9)) (F32.of_int 5))
                   (F32.of_int 32) |>);;
         store (fun w => w <| consecutiveBadTemp := 0 |>)
       else
         Serial_Printf
           "Temperature reading of %.2f C is out of bounds and is being marked as invalid!\n"
           [Flt temporaryTemperature];;
         store (fun w => w <| consecutiveBadTemp := u32 (consecutiveBadTemp w + 1) |>));;
      (if F32.ge temporaryHumidity (F32.of_int 0)
          || F32.le temporaryHumidity (F32.of_int 100)
       then
         store (fun w => w <| humidity := temporaryHumidity |>);;
         store (fun w => w <| consecutiveBadHumidity := 0 |>)
       else
         Serial_Printf
           "Humidity reading of %.2f is out of bounds and is being marked as invalid!\n"
           [Flt temporaryHumidity];;
         store (fun w => w <| consecutiveBadHumidity := u32 (consecutiveBadHumidity w + 1) |>));;
      badTemp <- load consecutiveBadTemp;;
      badHumidity <- load consecutiveBadHumidity;;
      if (badTemp >? 4) || (badHumidity >? 4) then
        Serial_Println "\n\n\n\n";;
        Serial_Printf "%u consecutive bad temperature readings!\n" [Int badTemp];;
        Serial_Printf "%u consecutive bad humidity readings!\n" [Int badHumidity];;
        Serial_Println "Resetting the device!\n\n\n";;
        ESP_restart
      else skip
  | None => skip
  end;;
  now <- millis;;
  store (fun w => w <| lastPollTime := now |>).

(** *** checkForSSID *)

Definition checkForSSID (ssidName : string) : M Z :=
  found <- load (fun w => WiFi_scanNetworks env (clock w));;
  blocking;;
  let networkCount := u8 (Z.of_nat (length found)) in
  hit <- (if networkCount =? 0 then
            Serial_Println "No WiFi SSIDs are in range!";;
            ret false
          else
            Serial_PrintNum networkCount;;
            Serial_Println " networks found.";;
            ret (existsb (String.eqb ssidName)
                         (firstn (Z.to_nat networkCount) found)));;
  if hit : bool then ret 1
  else
    Serial_Print "SSID '";;
    Serial_Print ssidName;;
    Serial_Println "' was not found!";;
    ret 0.

(** *** wifiMultiConnect *)

(** The wait for the association:
    [while( WiFi.status() != WL_CONNECTED &&
            ( millis() - wifiConnectionStartTime < wifiConnectionTimeout ))].
    Every turn waits a second, so [awaitTurns] turns are enough to leave
    the loop ([awaitConnection_exits] below). *)
Fixpoint awaitConnection (turns : nat) (wifiConnectionStartTime : Z) : M unit :=
  match turns with
  | O => skip
  | S turns' =>
      status <- WiFi_Status;;
      now <- millis;;
      if negb (status =? WL_CONNECTED)
         && (u32 (now - wifiConnectionStartTime) <? wifiConnectionTimeout)
      then
        Serial_Print ".";;
        delay MILLIS_IN_SEC;;
        awaitConnection turns' wifiConnectionStartTime
      else skip
  end.

Definition awaitTurns : nat :=
  S (Z.to_nat (wifiConnectionTimeout / MILLIS_IN_SEC)).

(** The body of the [for] loop, from [networkArrayIndex] on, with
    [remaining] turns left before the loop's bound. *)
Fixpoint wifiMultiConnect_for (remaining : nat) (networkArrayIndex : Z) : M unit :=
  match remaining with
  | O => Serial_Println "Exiting wifiMultiConnect()\n"
  | S remaining' =>
      wifiSsid <- subscript "wifiSsidArray" (wifiSsidArray env) networkArrayIndex;;
      wifiPassword <- subscript "wifiPassArray" (wifiPassArray env) networkArrayIndex;;
      Serial_Print ("Attempting to connect to SSID " ++ dquote);;
      Serial_Print wifiSsid;;
      Serial_Println dquote;;
      present <- checkForSSID wifiSsid;;
      if negb (present =? 0) then
        mode <- load (fun w => WiFi_mode env (clock w));;
        emit WiFi_mode_STA;;
        Serial_Printf "Wi-Fi mode set to WIFI_STA %s\n"
                      [Str (if mode : bool then "" else "Failed!")];;
        emit (WiFi_begin wifiSsid wifiPassword);;
        wifiConnectionStartTime <- millis;;
        Serial_Print "Waiting up to ";;
        Serial_PrintNum (wifiConnectionTimeout / MILLIS_IN_SEC);;
        Serial_Print " seconds for a connection";;
        awaitConnection awaitTurns wifiConnectionStartTime;;
        Serial_Println "";;
        status <- WiFi_Status;;
        if status =? WL_CONNECTED then
          digitalWrite LED_PIN 0;;
          Serial_Print "IP address: ";;
          ip <- load (fun w => WiFi_localIP env (clock w));;
          (let '(ip0, ip1, ip2, ip3) := ip in
           store (fun w => w <| ipAddress :=
             snprintf 16 (decimal ip0 ++ "." ++ decimal ip1 ++ "."
                          ++ decimal ip2 ++ "." ++ decimal ip3) |>));;
          address <- load ipAddress;;
          Serial_Println address;;
          store (fun w => w <| networkIndex := networkArrayIndex |>);;
          Serial_Println "\nWiFi connection established!"
        else
          Serial_Println "Unable to connect to WiFi!";;
          wifiMultiConnect_for remaining' (networkArrayIndex + 1)
      else
        Serial_Println "That network was not found!";;
        wifiMultiConnect_for remaining' (networkArrayIndex + 1)
  end.

(** The loop runs while [networkArrayIndex < sizeof( wifiSsidArray )]. *)
Definition wifiMultiConnect : M unit :=
  digitalWrite LED_PIN 1;;
  Serial_Println "\nEntering wifiMultiConnect()";;
  wifiMultiConnect_for (Z.to_nat (sizeof_pointer_array (wifiSsidArray env))) 0.

(** *** mqttMultiConnect *)

(** One turn of the loop [while( !mqttClient.connected() &&
    attemptNumber < maxAttempts )], after its test. *)
Definition mqttAttempt (attemptNumber maxAttempts : Z) : M unit :=
  suffix <- load (fun w => random env 999 (clock w));;
  mac <- load macAddress;;
  let clientId := snprintf 22 (mac ++ "-" ++ decimal3 suffix) in
  Serial_Printf "Connecting with client ID '%s'.\n" [Str clientId];;
  Serial_Printf "Attempt # %d...." [Int (attemptNumber + 1)];;
  accepted <- load (fun w => mqtt_connect env clientId (clock w));;
  blocking;;
  if accepted : bool then
    now <- millis;;
    store (fun w => w <| lastMqttConnectionTime := now |>);;
    digitalWrite LED_PIN 0;;
    Serial_Println " connected.";;
    sized <- load (fun w => mqtt_setBufferSize env BUFFER_SIZE (clock w));;
    (if negb sized then
       Serial_Printf "Unable to create a buffer %d bytes long!\n" [Int BUFFER_SIZE];;
       Serial_Println "Restarting the device!";;
       ESP_restart
     else skip);;
    subscribed <- load (fun w => mqtt_subscribe env mqttCommandTopic (clock w));;
    emit (Mqtt_subscribe mqttCommandTopic);;
    if subscribed : bool then
      Serial_Printf "Successfully subscribed to topic '%s'.\n" [Str mqttCommandTopic]
    else
      Serial_Printf "Failed to subscribe to topic '%s'!\n" [Str mqttCommandTopic]
  else
    now <- millis;;
    store (fun w => w <| lastMqttConnectionTime := now |>);;
    mqttState <- mqttClient_state;;
    Serial_Printf " failed!  Return code: %d" [Int mqttState];;
    (if mqttState =? -4 then Serial_Println " - MQTT_CONNECTION_TIMEOUT"
     else if mqttState =? 2 then Serial_Println " - MQTT_CONNECT_BAD_CLIENT_ID"
     else Serial_Println "");;
    if maxAttempts >? 1 then
      Serial_Printf "Trying again in %lu seconds.\n\n"
                    [Int (mqttReconnectDelay / MILLIS_IN_SEC)];;
      delay mqttReconnectDelay
    else skip.

(** The loop, with [remaining = maxAttempts - attemptNumber] turns left
    before [attemptNumber < maxAttempts] fails. *)
Fixpoint mqttAttempts (remaining : nat) (attemptNumber maxAttempts : Z) : M unit :=
  match remaining with
  | O => skip
  | S remaining' =>
      connected <- mqttClient_connected;;
      if negb connected then
        mqttAttempt attemptNumber maxAttempts;;
        mqttAttempts remaining' (attemptNumber + 1) maxAttempts
      else skip
  end.

Definition mqttMultiConnect (maxAttempts : Z) : M unit :=
  time <- millis;;
  last <- load lastMqttConnectionTime;;
  if due last time mqttReconnectCooldown then
    Serial_Print "Current time: ";;
    Serial_PrintlnNum time;;
    Serial_Print "Last MQTT connection time: ";;
    Serial_PrintlnNum last;;
    Serial_Print "MQTT boolean: ";;
    Serial_PrintlnNum
      (if (time >? mqttReconnectCooldown)
          && (u32 (time - mqttReconnectCooldown) >? last) then 1 else 0);;
    Serial_Println "Function mqttMultiConnect() has initiated.\n";;
    status <- WiFi_Status;;
    (if negb (status =? WL_CONNECTED) then wifiMultiConnect else skip);;
    digitalWrite LED_PIN 1;;
    index <- load networkIndex;;
    (if negb (index =? 2112) then
       Serial_Print "Attempting to connect to the MQTT broker at '";;
       broker <- subscript "mqttBrokerArray" (mqttBrokerArray env) index;;
       Serial_Print broker;;
       Serial_Print ":";;
       port <- subscript "mqttPortArray" (mqttPortArray env) index;;
       Serial_PrintNum port;;
       Serial_Print "' up to ";;
       Serial_PrintNum maxAttempts;;
       Serial_Println " times."
     else
       Serial_Print "Attempting to connect to the MQTT broker up to ";;
       Serial_PrintNum maxAttempts;;
       Serial_Println " times.");;
    mqttAttempts (Z.to_nat maxAttempts) 0 maxAttempts;;
    connected <- mqttClient_connected;;
    if negb connected then
      Serial_Println "\n";;
      Serial_Println "*************************************";;
      Serial_Println "Unable to connect to the MQTT broker!";;
      Serial_Println "*************************************";;
      Serial_Println "\n";;
      delay MILLIS_IN_SEC
    else skip
  else skip.

(** *** printTelemetry *)

Definition lookupWifiCode (code : Z) : string :=
  snprintf 26
    (if code =? 0 then "Idle"
     else if code =? 1 then "No SSID"
     else if code =? 2 then "Scan completed"
     else if code =? 3 then "Connected"
     else if code =? 4 then "Connection failed"
     else if code =? 5 then "Connection lost"
     else if code =? 6 then "Disconnected"
     else "Unknown Wi-Fi status code").

Definition lookupMQTTCode (code : Z) : string :=
  snprintf 29
    (if code =? -4 then "Connection timeout"
     else if code =? -3 then "Connection lost"
     else if code =? -2 then "Connect failed"
     else if code =? -1 then "Disconnected"
     else if code =? 0 then "Connected"
     else if code =? 1 then "Bad protocol"
     else if code =? 2 then "Bad client ID"
     else if code =? 3 then "Unavailable"
     else if code =? 4 then "Bad credentials"
     else if code =? 5 then "Unauthorized"
     else "Unknown MQTT state code").

Definition printTelemetry : M unit :=
  Serial_Println "";;
  mac <- load macAddress;;
  Serial_Printf "MAC address: %s\n" [Str mac];;
  wifiStatusCode <- WiFi_Status;;
  Serial_Printf "Wi-Fi status: %d, %s\n"
                [Int wifiStatusCode; Str (lookupWifiCode wifiStatusCode)];;
  mqttStateCode <- mqttClient_state;;
  Serial_Printf "MQTT state: %d, %s\n"
                [Int mqttStateCode; Str (lookupMQTTCode mqttStateCode)];;
  (if wifiStatusCode =? 3 then
     ssid <- load (fun w => WiFi_SSID env (clock w));;
     Serial_Printf "Wi-Fi SSID: %s\n" [Str ssid];;
     address <- load ipAddress;;
     Serial_Printf "IP address: %s\n" [Str address];;
     signal <- load rssi;;
     Serial_Printf "RSSI: %ld\n" [Int signal]
   else skip);;
  index <- load networkIndex;;
  (if negb (index =? 2112) then
     both <- subscripts "mqttBrokerArray" (mqttBrokerArray env)
                        "mqttPortArray" (mqttPortArray env) index;;
     Serial_Printf "Broker: %s:%d\n" [Str (fst both); Int (snd both)]
   else skip);;
  Serial_Printf "Hostname: %s\n" [Str hostname];;
  Serial_Printf "Sketch file name: %s\n" [Str sketchFile];;
  Serial_Printf "Notes: %s\n" [Str notes];;
  celsius <- load tempC;;
  Serial_Printf "Temperature: %.2f C\n" [Flt celsius];;
  fahrenheit <- load tempF;;
  Serial_Printf "Temperature: %.2f F\n" [Flt fahrenheit];;
  moisture <- load humidity;;
  Serial_Printf "Humidity: %.2f %%\n" [Flt moisture];;
  count <- load publishCount;;
  Serial_Printf "Publish count: %lu\n" [Int count];;
  Serial_Printf "Next telemetry poll in %lu seconds\n\n"
                [Int (telemetryInterval / MILLIS_IN_SEC)].

(** *** publishStats *)

Definition publishStats : M unit :=
  mac <- load macAddress;;
  address <- load ipAddress;;
  signal <- load rssi;;
  count <- load publishCount;;
  let doc :=
    [("sketch", Str sketchFile); ("mac", Str mac); ("ip", Str address);
     ("rssi", Int signal); ("notes", Str notes); ("publishCount", Int count)] in
  Serial_Printf "Publishing stats to the '%s' topic.\n" [Str mqttStatsTopic];;
  connected <- mqttClient_connected;;
  if connected : bool then
    connected' <- mqttClient_connected;;
    sent <- (if connected' : bool then mqttClient_publish mqttStatsTopic (Json doc)
             else ret false);;
    if sent : bool then
      index <- load networkIndex;;
      both <- subscripts "mqttBrokerArray" (mqttBrokerArray env)
                         "mqttPortArray" (mqttPortArray env) index;;
      Serial_Printf
        "Published to this broker and port: %s:%d, and to this topic '%s':\n%s\n"
        [Str (fst both); Int (snd both); Str mqttStatsTopic; Doc doc]
    else Serial_Println "\n\nPublish failed!\n\n"
  else skip.

(** *** publishTelemetry *)

(** [if( mqttClient.publish( topic, message, false )) Serial.printf( "  %s\n", topic )] *)
Definition publishField (topic : string) (message : payload) : M unit :=
  sent <- mqttClient_publish topic message;;
  if sent : bool then Serial_Printf "  %s\n" [Str topic] else skip.

(** The numbers go through [char buffer[20]]: [ltoa] of a [long] takes at
    most twelve bytes of it, [dtostrf] as many as the value needs. *)
Definition publishTelemetry : M unit :=
  mac <- load macAddress;;
  address <- load ipAddress;;
  signal <- load rssi;;
  celsius <- load tempC;;
  fahrenheit <- load tempF;;
  moisture <- load humidity;;
  count <- load publishCount;;
  let doc :=
    [("sketch", Str sketchFile); ("mac", Str mac); ("ip", Str address);
     ("rssi", Int signal); ("notes", Str notes); ("tempC", Flt celsius);
     ("tempF", Flt fahrenheit); ("humidity", Flt moisture);
     ("publishCount", Int count)] in
  success <- mqttClient_publish mqttTopic (Json doc);;
  (if success : bool then
     Serial_Println "Successfully published to:";;
     publishField sketchTopic (Text sketchFile);;
     publishField macTopic (Text mac);;
     publishField ipTopic (Text address);;
     publishField rssiTopic (Ltoa signal);;
     publishField publishCountTopic (Ltoa count);;
     publishField notesTopic (Text notes);;
     dtostrf celsius 20;;
     publishField tempCTopic (Dtostrf celsius 1 3);;
     dtostrf fahrenheit 20;;
     publishField tempFTopic (Dtostrf fahrenheit 1 3);;
     dtostrf moisture 20;;
     publishField humidityTopic (Dtostrf moisture 1 3);;
     Serial_Printf "Successfully published to '%s', this JSON:\n" [Str mqttTopic]
   else
     Serial_Printf "Failed to publish to '%s', this JSON:\n" [Str mqttTopic]);;
  emit (Serial_println (Doc doc));;
  now <- millis;;
  store (fun w => w <| lastPublishTime := now |>);;
  interval <- load publishInterval;;
  Serial_Printf "Next MQTT publish in %lu seconds.\n\n" [Int (interval / MILLIS_IN_SEC)].

(** *** onReceiveCallback *)

(** The loop that echoes the payload, one character at a time. *)
Fixpoint echo (payload : string) : M unit :=
  match payload with
  | EmptyString => skip
  | String c rest => Serial_Print (String c EmptyString);; echo rest
  end.

(** [strcmp( command, name ) == 0]; [strcmp] reads through both of its
    arguments, and [command] is null when the document has no such member. *)
Definition strcmp_is (command : option string) (name : string) : M bool :=
  match command with
  | Some text => ret (String.eqb text name)
  | None => undefined (NullDereference "command")
  end.

Definition onReceiveCallback (topic payload : string) (doc : JsonDocument) : M unit :=
  Serial_Printf "Message arrived [%s] " [Str topic];;
  echo payload;;
  Serial_Println "";;
  let command := doc_command doc in
  isPublishTelemetry <- strcmp_is command "publishTelemetry";;
  if isPublishTelemetry : bool then
    Serial_Println
      "Reading and publishing sensor values because MQTT received the 'publishTelemetry' command.";;
    readTelemetry;;
    publishTelemetry;;
    Serial_Println "Readings have been published."
  else
    isChangeTelemetryInterval <- strcmp_is command "changeTelemetryInterval";;
    if isChangeTelemetryInterval : bool then
      Serial_Println
        "Changing the publish interval because MQTT received the 'changeTelemetryInterval' command.";;
      let tempValue := doc_value doc in
      (if tempValue >? 4 * MILLIS_IN_SEC then
         store (fun w => w <| publishInterval := tempValue |>)
       else skip);;
      interval <- load publishInterval;;
      Serial_Printf "MQTT publish interval has been updated to %lu\n" [Int interval];;
      store (fun w => w <| lastPublishTime := 0 |>)
    else
      isPublishStats <- strcmp_is command "publishStats";;
      if isPublishStats : bool then
        Serial_Println "Publishing stats because MQTT received the 'publishStats' command.";;
        readTelemetry;;
        publishStats
      else
        match command with
        | Some text => Serial_Printf "Unknown command: %s\n" [Str text]
        | None => undefined (NullDereference "command")
        end.

(** *** loop *)

(** [mqttClient.loop()]: a connected client hands an inbound message to
    the callback [setup()] registered. *)
Definition mqttClient_loop : M unit :=
  connected <- mqttClient_connected;;
  if connected : bool then
    inbound <- load (fun w => mqtt_inbound env (clock w));;
    match inbound with
    | Some (topic, payload, doc) => onReceiveCallback topic payload doc
    | None => skip
    end
  else skip.

(** The statements of the poll timer, once it is due. *)
Definition pollTelemetry : M unit :=
  readTelemetry;;
  printTelemetry.

(** The statements of the publish timer, once it is due. *)
Definition publishDue : M unit :=
  store (fun w => w <| publishCount := u32 (publishCount w + 1) |>);;
  readTelemetry;;
  printTelemetry;;
  publishTelemetry.

(** The statements of the LED timer, once it is due. *)
Definition updateIndicator : M unit :=
  now <- millis;;
  store (fun w => w <| lastLedBlinkTime := now |>);;
  status <- WiFi_Status;;
  if status =? WL_CONNECTED then
    mqttState <- mqttClient_state;;
    if negb (mqttState =? 0) then toggleLED
    else digitalWrite LED_PIN 0
  else digitalWrite LED_PIN 1.

Definition pollTimer : M unit :=
  currentTime <- millis;;
  last <- load lastPollTime;;
  if due last currentTime telemetryInterval then pollTelemetry else skip.

Definition publishTimer : M unit :=
  currentTime <- millis;;
  last <- load lastPublishTime;;
  interval <- load publishInterval;;
  if due last currentTime interval then publishDue else skip.

Definition indicatorTimer : M unit :=
  currentTime <- millis;;
  last <- load lastLedBlinkTime;;
  if due last currentTime ledBlinkInterval then updateIndicator else skip.

Definition loop : M unit :=
  connected <- mqttClient_connected;;
  (if negb connected then mqttMultiConnect 1 else skip);;
  mqttClient_loop;;
  emit OTA_handle;;
  pollTimer;;
  publishTimer;;
  indicatorTimer.

(** *** setup *)

Definition setupHTU21D : M unit :=
  Serial_Println "Initializing the HTU21D sensor.";;
  started <- load (fun w => htu21d_begin env (clock w));;
  if started : bool then
    present <- load (fun w => htu21d_isConnected env (clock w));;
    if present : bool then
      stat <- load (fun w => u8 (htu21d_getStatus env (clock w)));;
      Serial_Printf "HTU21D status code: %x\n" [Int stat];;
      stat <- load (fun w => u8 (htu21d_getFirmwareVersion env (clock w)));;
      Serial_Printf "HTU21D firmware version (hex): %x\n" [Int stat];;
      Serial_Printf "HTU21D firmware version (dec): %d\n" [Int stat];;
      stat <- load (fun w => u8 (htu21d_getResolution env (clock w)));;
      Serial_Printf "HTU21D resolution (hex): %x\n" [Int stat];;
      heating <- load (fun w => htu21d_isHeaterOn env (clock w));;
      (if heating : bool then emit Htu21d_heatOff else skip);;
      Serial_Println "The HTU21D has been configured."
    else skip
  else skip.

(** The four callbacks that [configureOTA] registers only print, when
    [ArduinoOTA.handle()] runs them during an update. *)
Definition configureOTA : M unit :=
  emit (OTA_setHostname hostname);;
  Serial_Printf "Using hostname '%s'\n" [Str hostname];;
  emit OTA_onStart;;
  emit OTA_onEnd;;
  emit OTA_onProgress;;
  emit OTA_onError;;
  emit OTA_begin;;
  Serial_Println "OTA is configured and ready.".

Definition setup : M unit :=
  delay MILLIS_IN_SEC;;
  emit (Serial_begin 115200);;
  ready <- load (fun w => Serial_ready env (clock w));;
  (if negb ready then delay MILLIS_IN_SEC else skip);;
  Serial_Println "\nSetup is initiating...";;
  emit Wire_begin;;
  emit (PinMode_OUTPUT LED_PIN);;
  digitalWrite LED_PIN 0;;
  Serial_Println sketchFile;;
  setupHTU21D;;
  store (fun w => w <| ipAddress := snprintf 16 "127.0.0.1" |>);;
  store (fun w => w <| macAddress := snprintf 18 (WiFi_macAddress env) |>);;
  Serial_Println "Connecting WiFi...";;
  wifiMultiConnect;;
  index <- load networkIndex;;
  (if negb (index =? 2112) then
     mqttBroker <- subscript "mqttBrokerArray" (mqttBrokerArray env) index;;
     mqttPort <- subscript "mqttPortArray" (mqttPortArray env) index;;
     emit (Mqtt_setServer mqttBroker mqttPort);;
     emit Mqtt_setCallback;;
     Serial_Printf "Using MQTT broker: %s\n" [Str mqttBroker];;
     Serial_Printf "Using MQTT port: %d\n" [Int mqttPort]
   else skip);;
  configureOTA;;
  address <- load ipAddress;;
  Serial_Printf "IP address: %s\n" [Str address];;
  Serial_Println "Setup has completed.\n".

(** The device after power-up: [setup()] once, then one iteration of
    [loop()] for each of the [gaps]. *)
Definition run (gaps : list Z) : M unit :=
  setup;;
  iterations loop gaps.

End Sketch.

(** ** The header-less revision

    [readTelemetry], [checkForSSID], [wifiMultiConnect] and [toggleLED] have
    the same statements in both revisions; the header-less one writes
    [MCU_LED] for [LED_PIN].  The other functions follow. *)

Module Prior.

Definition MCU_LED : Z := 2.

Section Sketch.

Variable env : Env.

Definition printTelemetry : M unit :=
  index <- load networkIndex;;
  ssid <- subscript "wifiSsidArray" (wifiSsidArray env) index;;
  Serial_Printf "WiFi SSID: %s\n" [Str ssid];;
  both <- subscripts env "mqttBrokerArray" (mqttBrokerArray env)
                     "mqttPortArray" (mqttPortArray env) index;;
  Serial_Printf "Broker: %s:%d\n" [Str (fst both); Int (snd both)];;
  celsius <- load tempC;;
  Serial_Printf "Temperature: %.2f C\n" [Flt celsius];;
  fahrenheit <- load tempF;;
  Serial_Printf "Temperature: %.2f F\n" [Flt fahrenheit];;
  moisture <- load humidity;;
  Serial_Printf "Humidity: %.2f %%\n" [Flt moisture];;
  signal <- load rssi;;
  Serial_Printf "WiFi RSSI: %ld\n" [Int signal];;
  count <- load publishCount;;
  Serial_Printf "Publish count: %lu\n" [Int count];;
  Serial_Printf "File name: %s\n" [Str sketchFile];;
  Serial_Printf "Next telemetry poll in %lu seconds\n\n"
                [Int (telemetryInterval / MILLIS_IN_SEC)].

(** The statements of the LED timer, once it is due. *)
Definition updateIndicator : M unit :=
  now <- millis;;
  store (fun w => w <| lastLedBlinkTime := now |>);;
  status <- WiFi_Status env;;
  if status =? WL_CONNECTED then
    mqttState <- mqttClient_state env;;
    if negb (mqttState =? 0) then toggleLED
    else digitalWrite MCU_LED 0
  else skip.

(** [mqttCommandTopic] of this revision. *)
Definition mqttCommandTopic : string := "adamsDesk/8266/command".

(** *** publishStats *)

Definition publishStats : M unit :=
  mac <- load macAddress;;
  address <- load ipAddress;;
  signal <- load rssi;;
  count <- load publishCount;;
  let doc :=
    [("sketch", Str sketchFile); ("mac", Str mac); ("ip", Str address);
     ("rssi", Int signal); ("publishCount", Int count)] in
  Serial_Printf "Publishing stats to the '%s' topic.\n" [Str mqttStatsTopic];;
  connected <- mqttClient_connected env;;
  if connected : bool then
    connected' <- mqttClient_connected env;;
    sent <- (if connected' : bool then mqttClient_publish env mqttStatsTopic (Json doc)
             else ret false);;
    if sent : bool then
      index <- load networkIndex;;
      both <- subscripts env "mqttBrokerArray" (mqttBrokerArray env)
                         "mqttPortArray" (mqttPortArray env) index;;
      Serial_Printf
        "Published to this broker and port: %s:%d, and to this topic '%s':\n%s\n"
        [Str (fst both); Int (snd both); Str mqttStatsTopic; Doc doc]
    else Serial_Println "\n\nPublish failed!\n\n"
  else skip.

(** *** mqttMultiConnect

    This revision has no cooldown, publishes the stats on every connection
    and returns whether the session is up. *)

(** One turn of the loop [while( !mqttClient.connected() &&
    attemptNumber < maxAttempts )], after its test. *)
Definition mqttAttempt (attemptNumber : Z) : M unit :=
  suffix <- load (fun w => random env 999 (clock w));;
  mac <- load macAddress;;
  let clientId := snprintf 22 (mac ++ "-" ++ decimal3 suffix) in
  Serial_Printf "Connecting with client ID '%s'.\n" [Str clientId];;
  Serial_Printf "Attempt # %d...." [Int (attemptNumber + 1)];;
  accepted <- load (fun w => mqtt_connect env clientId (clock w));;
  blocking env;;
  if accepted : bool then
    digitalWrite MCU_LED 0;;
    Serial_Println " connected.";;
    sized <- load (fun w => mqtt_setBufferSize env BUFFER_SIZE (clock w));;
    (if negb sized then
       Serial_Printf "Unable to create a buffer %d bytes long!\n" [Int BUFFER_SIZE];;
       Serial_Println "Restarting the device!";;
       ESP_restart
     else skip);;
    publishStats;;
    subscribed <- load (fun w => mqtt_subscribe env mqttCommandTopic (clock w));;
    emit (Mqtt_subscribe mqttCommandTopic);;
    if subscribed : bool then
      Serial_Printf "Successfully subscribed to topic '%s'.\n" [Str mqttCommandTopic]
    else
      Serial_Printf "Failed to subscribe to topic '%s'!\n" [Str mqttCommandTopic]
  else
    mqttState <- mqttClient_state env;;
    Serial_Printf " failed!  Return code: %d" [Int mqttState];;
    (if mqttState =? -4 then Serial_Println " - MQTT_CONNECTION_TIMEOUT"
     else if mqttState =? 2 then Serial_Println " - MQTT_CONNECT_BAD_CLIENT_ID"
     else Serial_Println "");;
    Serial_Printf "Trying again in %lu seconds.\n\n"
                  [Int (mqttReconnectDelay / MILLIS_IN_SEC)];;
    delay mqttReconnectDelay.

Fixpoint mqttAttempts (remaining : nat) (attemptNumber : Z) : M unit :=
  match remaining with
  | O => skip
  | S remaining' =>
      connected <- mqttClient_connected env;;
      if negb connected then
        mqttAttempt attemptNumber;;
        mqttAttempts remaining' (attemptNumber + 1)
      else skip
  end.

(** [wifiMultiConnect()] has the same statements in both revisions. *)
Definition mqttMultiConnect (maxAttempts : Z) : M bool :=
  Serial_Println "Function mqttMultiConnect() has initiated.\n";;
  status <- WiFi_Status env;;
  (if negb (status =? WL_CONNECTED) then wifiMultiConnect env else skip);;
  digitalWrite MCU_LED 1;;
  index <- load networkIndex;;
  (if negb (index =? 2112) then
     Serial_Print "Attempting to connect to the MQTT broker at '";;
     broker <- subscript "mqttBrokerArray" (mqttBrokerArray env) index;;
     Serial_Print broker;;
     Serial_Print ":";;
     port <- subscript "mqttPortArray" (mqttPortArray env) index;;
     Serial_PrintNum port;;
     Serial_Print "' up to ";;
     Serial_PrintNum maxAttempts;;
     Serial_Println " times."
   else
     Serial_Print "Attempting to connect to the MQTT broker up to ";;
     Serial_PrintNum maxAttempts;;
     Serial_Println " times.");;
  mqttAttempts (Z.to_nat maxAttempts) 0;;
  connected <- mqttClient_connected env;;
  if negb connected then
    Serial_Println "Unable to connect to the MQTT broker!";;
    ret false
  else
    Serial_Println "Function mqttMultiConnect() has completed.\n";;
    ret true.

(** *** publishTelemetry *)

Definition notes : string := "adamsDesk/8266/htu21d ESP8266 with HTU21D and OTA".
Definition hostname : string := "8266-htu21".
Definition sketchTopic : string := "adamsDesk/8266/sketch".
Definition macTopic : string := "adamsDesk/8266/mac".
Definition ipTopic : string := "adamsDesk/8266/ip".
Definition rssiTopic : string := "adamsDesk/8266/rssi".
Definition publishCountTopic : string := "adamsDesk/8266/publishCount".
Definition notesTopic : string := "adamsDesk/8266/notes".
Definition tempCTopic : string := "adamsDesk/8266/sht40/tempC".
Definition tempFTopic : string := "adamsDesk/8266/sht40/tempF".
Definition humidityTopic : string := "adamsDesk/8266/sht40/humidity".

Definition publishTelemetry : M unit :=
  mac <- load macAddress;;
  address <- load ipAddress;;
  celsius <- load tempC;;
  fahrenheit <- load tempF;;
  moisture <- load humidity;;
  signal <- load rssi;;
  count <- load publishCount;;
  let doc :=
    [("sketch", Str sketchFile); ("mac", Str mac); ("ip", Str address);
     ("tempC", Flt celsius); ("tempF", Flt fahrenheit); ("humidity", Flt moisture);
     ("rssi", Int signal); ("publishCount", Int count); ("notes", Str notes)] in
  success <- mqttClient_publish env mqttTopic (Json doc);;
  (if success : bool then
     Serial_Println "Successfully published to:";;
     publishField env sketchTopic (Text sketchFile);;
     publishField env macTopic (Text mac);;
     publishField env ipTopic (Text address);;
     publishField env rssiTopic (Ltoa signal);;
     publishField env publishCountTopic (Ltoa count);;
     publishField env notesTopic (Text notes);;
     dtostrf celsius 20;;
     publishField env tempCTopic (Dtostrf celsius 1 3);;
     dtostrf fahrenheit 20;;
     publishField env tempFTopic (Dtostrf fahrenheit 1 3);;
     dtostrf moisture 20;;
     publishField env humidityTopic (Dtostrf moisture 1 3);;
     Serial_Printf "Successfully published to '%s', this JSON:\n" [Str mqttTopic]
   else
     Serial_Printf "Failed to publish to '%s', this JSON:\n" [Str mqttTopic]);;
  emit (Serial_println (Doc doc));;
  now <- millis;;
  store (fun w => w <| lastPublishTime := now |>);;
  interval <- load publishInterval;;
  Serial_Printf "Next MQTT publish in %lu seconds.\n\n" [Int (interval / MILLIS_IN_SEC)].

(** *** onReceiveCallback *)

(** [Serial.println] of a null pointer prints the end of the line only; the
    calls of [strcmp] before it have read through the pointer by then. *)
Definition onReceiveCallback (topic payload : string) (doc : JsonDocument) : M unit :=
  Serial_Printf "Message arrived [%s] " [Str topic];;
  echo payload;;
  Serial_Println "";;
  let command := doc_command doc in
  isPublishTelemetry <- strcmp_is command "publishTelemetry";;
  if isPublishTelemetry : bool then
    Serial_Println "Reading and publishing sensor values.";;
    readTelemetry env;;
    publishTelemetry;;
    Serial_Println "Readings have been published."
  else
    isChangeTelemetryInterval <- strcmp_is command "changeTelemetryInterval";;
    if isChangeTelemetryInterval : bool then
      Serial_Println "Changing the publish interval.";;
      let tempValue := doc_value doc in
      (if tempValue >? 4 * MILLIS_IN_SEC then
         store (fun w => w <| publishInterval := tempValue |>)
       else skip);;
      Serial_Print "MQTT publish interval has been updated to ";;
      interval <- load publishInterval;;
      Serial_PrintlnNum interval;;
      store (fun w => w <| lastPublishTime := 0 |>)
    else
      isPublishStatus <- strcmp_is command "publishStatus";;
      if isPublishStatus : bool then
        Serial_Println "publishStatus is not yet implemented."
      else
        Serial_Print "Unknown command: ";;
        match command with
        | Some text => Serial_Println text
        | None => Serial_Println ""
        end.

(** *** loop *)

Definition mqttClient_loop : M unit :=
  connected <- mqttClient_connected env;;
  if connected : bool then
    inbound <- load (fun w => mqtt_inbound env (clock w));;
    match inbound with
    | Some (topic, payload, doc) => onReceiveCallback topic payload doc
    | None => skip
    end
  else skip.

Definition pollTelemetry : M unit :=
  readTelemetry env;;
  printTelemetry.

Definition publishDue : M unit :=
  store (fun w => w <| publishCount := u32 (publishCount w + 1) |>);;
  readTelemetry env;;
  printTelemetry;;
  publishTelemetry.

Definition pollTimer : M unit :=
  time <- millis;;
  last <- load lastPollTime;;
  if due last time telemetryInterval then pollTelemetry else skip.

Definition publishTimer : M unit :=
  time <- millis;;
  last <- load lastPublishTime;;
  interval <- load publishInterval;;
  if due last time interval then publishDue else skip.

Definition indicatorTimer : M unit :=
  time <- millis;;
  last <- load lastLedBlinkTime;;
  if due last time ledBlinkInterval then updateIndicator else skip.

Definition loop : M unit :=
  connected <- mqttClient_connected env;;
  (if negb connected then mqttMultiConnect 5;; skip else skip);;
  mqttClient_loop;;
  emit OTA_handle;;
  pollTimer;;
  publishTimer;;
  indicatorTimer.

(** *** setup *)

(** This revision prints the firmware version once more where the other
    one reads the resolution. *)
Definition setupHTU21D : M unit :=
  Serial_Println "Initializing the HTU21D sensor.";;
  started <- load (fun w => htu21d_begin env (clock w));;
  if started : bool then
    present <- load (fun w => htu21d_isConnected env (clock w));;
    if present : bool then
      stat <- load (fun w => u8 (htu21d_getStatus env (clock w)));;
      Serial_Printf "HTU21D status code: %x\n" [Int stat];;
      stat <- load (fun w => u8 (htu21d_getFirmwareVersion env (clock w)));;
      Serial_Printf "HTU21D firmware version (hex): %x\n" [Int stat];;
      Serial_Printf "HTU21D firmware version (dec): %d\n" [Int stat];;
      Serial_Printf "HTU21D resolution (hex): %x\n" [Int stat];;
      heating <- load (fun w => htu21d_isHeaterOn env (clock w));;
      (if heating : bool then emit Htu21d_heatOff else skip);;
      Serial_Println "The HTU21D has been configured."
    else skip
  else skip.

Definition configureOTA : M unit :=
  emit (OTA_setHostname hostname);;
  Serial_Printf "Using hostname '%s'\n" [Str hostname];;
  emit OTA_onStart;;
  emit OTA_onEnd;;
  emit OTA_onProgress;;
  emit OTA_onError;;
  emit OTA_begin;;
  Serial_Println "OTA is configured and ready.".

Definition setup : M unit :=
  emit (Serial_begin 115200);;
  delay MILLIS_IN_SEC;;
  emit (PinMode_OUTPUT MCU_LED);;
  digitalWrite MCU_LED 0;;
  ready <- load (fun w => Serial_ready env (clock w));;
  (if negb ready then delay MILLIS_IN_SEC else skip);;
  Serial_Println "\nSetup is initiating...";;
  emit Wire_begin;;
  Serial_Println sketchFile;;
  setupHTU21D;;
  store (fun w => w <| ipAddress := snprintf 16 "127.0.0.1" |>);;
  store (fun w => w <| macAddress := snprintf 18 (WiFi_macAddress env) |>);;
  Serial_Println "Connecting WiFi...";;
  wifiMultiConnect env;;
  index <- load networkIndex;;
  (if negb (index =? 2112) then
     mqttBroker <- subscript "mqttBrokerArray" (mqttBrokerArray env) index;;
     mqttPort <- subscript "mqttPortArray" (mqttPortArray env) index;;
     emit (Mqtt_setServer mqttBroker mqttPort);;
     emit Mqtt_setCallback;;
     Serial_Printf "Using MQTT broker: %s\n" [Str mqttBroker];;
     Serial_Printf "Using MQTT port: %d\n" [Int mqttPort]
   else skip);;
  configureOTA;;
  address <- load ipAddress;;
  Serial_Printf "IP address: %s\n" [Str address];;
  mqttMultiConnect 5;;
  Serial_Println "Setup has completed.\n".

Definition run (gaps : list Z) : M unit :=
  setup;;
  iterations loop gaps.

End Sketch.

End Prior.

(** ** The LED, as the design describes it

    The design gives the LED one of three behaviours, chosen by whether the
    WiFi is associated and whether the MQTT session is up. *)

Inductive ledAction : Type := SteadyOn | Toggling | SteadyOff.

Definition spec_indicator (wifiAssociated mqttConnected : bool) : ledAction :=
  match wifiAssociated, mqttConnected with
  | true, true => SteadyOn
  | true, false => Toggling
  | false, _ => SteadyOff
  end.

(** What a behaviour does to the level of the pin; the LED is lit at 0. *)
Definition ledLevel (action : ledAction) (level : Z) : Z :=
  match action with
  | SteadyOn => 0
  | SteadyOff => 1
  | Toggling => if level =? 1 then 0 else 1
  end.

(** ** A bench

    A board on a bench, for the examples: four networks are configured, the
    scan sees [visible], the sensor answers [reading], the broker refuses
    every connection and a blocking call takes [pause] milliseconds. *)

Definition bench (visible : list string)
           (reading : option (F32.float * F32.float)) (pause : Z) : Env := {|
  wifiSsidArray := ["Network1"; "Network2"; "Network3"; "Syrinx"];
  wifiPassArray := ["Password1"; "Password2"; "Password3"; "By-Tor"];
  mqttBrokerArray := ["Broker1"; "Broker2"; "Broker3"; "192.168.0.2"];
  mqttPortArray := [1883; 1883; 1883; 2112];
  WiFi_status := fun _ => 7;
  WiFi_mode := fun _ => true;
  WiFi_scanNetworks := fun _ => visible;
  WiFi_SSID := fun _ => "";
  WiFi_RSSI := fun _ => -60;
  WiFi_localIP := fun _ => (0, 0, 0, 0);
  htu21d_read := fun _ => reading;
  mqtt_connected := fun _ => false;
  mqtt_state := fun _ => -2;
  mqtt_connect := fun _ _ => false;
  mqtt_setBufferSize := fun _ _ => true;
  mqtt_subscribe := fun _ _ => true;
  mqtt_publish := fun _ _ => false;
  mqtt_inbound := fun _ => None;
  random := fun _ _ => 7;
  latency := fun _ => pause;
  Serial_ready := fun _ => true;
  WiFi_macAddress := "5C:CF:7F:00:11:22";
  htu21d_begin := fun _ => true;
  htu21d_isConnected := fun _ => true;
  htu21d_getStatus := fun _ => 0;
  htu21d_getFirmwareVersion := fun _ => 255;
  htu21d_getResolution := fun _ => 0;
  htu21d_isHeaterOn := fun _ => false;
  rightToLeft := true
|}.

(** The same bench with the WiFi associated. *)
Definition associated (e : Env) : Env := {|
  wifiSsidArray := wifiSsidArray e;
  wifiPassArray := wifiPassArray e;
  mqttBrokerArray := mqttBrokerArray e;
  mqttPortArray := mqttPortArray e;
  WiFi_status := fun _ => WL_CONNECTED;
  WiFi_mode := WiFi_mode e;
  WiFi_scanNetworks := WiFi_scanNetworks e;
  WiFi_SSID := fun _ => "Syrinx";
  WiFi_RSSI := WiFi_RSSI e;
  WiFi_localIP := fun _ => (192, 168, 0, 7);
  htu21d_read := htu21d_read e;
  mqtt_connected := mqtt_connected e;
  mqtt_state := mqtt_state e;
  mqtt_connect := mqtt_connect e;
  mqtt_setBufferSize := mqtt_setBufferSize e;
  mqtt_subscribe := mqtt_subscribe e;
  mqtt_publish := mqtt_publish e;
  mqtt_inbound := mqtt_inbound e;
  random := random e;
  latency := latency e;
  Serial_ready := Serial_ready e;
  WiFi_macAddress := WiFi_macAddress e;
  htu21d_begin := htu21d_begin e;
  htu21d_isConnected := htu21d_isConnected e;
  htu21d_getStatus := htu21d_getStatus e;
  htu21d_getFirmwareVersion := htu21d_getFirmwareVersion e;
  htu21d_getResolution := htu21d_getResolution e;
  htu21d_isHeaterOn := htu21d_isHeaterOn e;
  rightToLeft := rightToLeft e
|}.

(** The benches of the examples. *)

(** The sensor answers with a temperature that is not a number. *)
Definition nanReading : Env := bench [] (Some (F32.nan, F32.of_int 50)) 0.

(** Four bad temperature readings have been counted. *)
Definition fourBadTemps : World := boot <| consecutiveBadTemp := 4 |>.

(** Three bad temperature readings have been counted. *)
Definition threeBadTemps : World := boot <| consecutiveBadTemp := 3 |>.

(** The sensor answers 100 degrees Celsius and 110 percent humidity; the
    HTU21D can report both (its formulas span -46.85 to 128.87 degrees and
    -6 to 119 percent). *)
Definition hotAndWet : Env := bench [] (Some (F32.of_int 100, F32.of_int 110)) 0.

(** Two bad readings have been counted on each channel. *)
Definition twoBadEach : World :=
  boot <| consecutiveBadTemp := 2 |> <| consecutiveBadHumidity := 2 |>.

(** No configured network is in range. *)
Definition outOfRange : Env := bench [] None 0.

(** Only the fourth configured network is in range, and the WiFi
    associates with it. *)
Definition atHome : Env := associated (bench ["Elsewhere"; "Syrinx"] None 0).

(** The WiFi is associated, the broker refuses, and a blocking call takes
    five milliseconds. *)
Definition refusing : Env := associated (bench [] None 5).

(** Seven seconds after an attempt to connect that was made at 3000 ms. *)
Definition recentAttempt : World :=
  boot <| networkIndex := 3 |> <| lastMqttConnectionTime := 3000 |> <| clock := 10000 |>.

(** Five milliseconds before [millis()] rolls over to 0, long after the
    last attempt to connect. *)
Definition beforeRollover : World :=
  boot <| networkIndex := 3 |> <| lastMqttConnectionTime := 3000 |>
       <| clock := 2 ^ 32 - 5 |>.

(** What the echo loop of [onReceiveCallback] prints. *)
Definition echoed (payload : string) : list event :=
  map (fun c => Serial_print (Str (String c EmptyString))) (list_ascii_of_string payload).

(** ** Readings of the trace *)

(** The topics of the messages handed to [mqttClient.publish], in order. *)
Definition published (events : list event) : list string :=
  flat_map (fun e => match e with Mqtt_publish topic _ => [topic] | _ => [] end) events.

(** The networks handed to [WiFi.begin], in order. *)
Definition begun (events : list event) : list (string * string) :=
  flat_map (fun e => match e with WiFi_begin ssid password => [(ssid, password)] | _ => [] end)
           events.

(** The number of attempts to connect to the broker that were announced. *)
Definition attempts (events : list event) : nat :=
  length (filter (fun e => match e with
                           | Serial_printf format _ => String.eqb format "Attempt # %d...."
                           | _ => false
                           end) events).

(** The text [dtostrf] makes of a value fits the 20 bytes of [buffer] in
    [publishTelemetry]. *)
Definition printable (x : F32.float) : bool := dtostrf_length x <? 20.

(** [( tempC * 9 / 5 ) + 32], the conversion in [readTelemetry]. *)
Definition toFahrenheit (celsius : F32.float) : F32.float :=
  F32.add (F32.div (F32.mul celsius (F32.of_int 9)) (F32.of_int 5)) (F32.of_int 32).

(** The session is up, the broker takes every message, the sensor answers
    21 degrees and 40 percent, and a command to publish every 30 seconds is
    waiting. *)
Definition commanded : Env := {|
  wifiSsidArray := wifiSsidArray atHome;
  wifiPassArray := wifiPassArray atHome;
  mqttBrokerArray := mqttBrokerArray atHome;
  mqttPortArray := mqttPortArray atHome;
  WiFi_status := fun _ => WL_CONNECTED;
  WiFi_mode := fun _ => true;
  WiFi_scanNetworks := fun _ => ["Syrinx"];
  WiFi_SSID := fun _ => "Syrinx";
  WiFi_RSSI := fun _ => -60;
  WiFi_localIP := fun _ => (192, 168, 0, 7);
  htu21d_read := fun _ => Some (F32.of_int 21, F32.of_int 40);
  mqtt_connected := fun _ => true;
  mqtt_state := fun _ => MQTT_CONNECTED;
  mqtt_connect := fun _ _ => true;
  mqtt_setBufferSize := fun _ _ => true;
  mqtt_subscribe := fun _ _ => true;
  mqtt_publish := fun _ _ => true;
  mqtt_inbound := fun _ =>
    Some (mqttCommandTopic, "{...}",
          {| doc_command := Some "changeTelemetryInterval"; doc_value := 30000 |});
  random := fun _ _ => 7;
  latency := fun _ => 2;
  Serial_ready := fun _ => true;
  WiFi_macAddress := WiFi_macAddress atHome;
  htu21d_begin := fun _ => true;
  htu21d_isConnected := fun _ => true;
  htu21d_getStatus := fun _ => 0;
  htu21d_getFirmwareVersion := fun _ => 255;
  htu21d_getResolution := fun _ => 0;
  htu21d_isHeaterOn := fun _ => false;
  rightToLeft := rightToLeft atHome
|}.

(** Five seconds after boot, connected through the fourth network. *)
Definition online : World :=
  boot <| networkIndex := 3 |> <| ipAddress := "192.168.0.7" |> <| clock := 5000 |>.


(** The fourth network is in range and the broker accepts the first
    connection, which is up 1010 ms after boot.  A minute after boot the
    WiFi drops: [WiFi.status()] answers WL_CONNECTION_LOST, while the MQTT
    client still holds its connection.  No command arrives. *)
Definition dropping : Env :=
  commanded <| WiFi_status := fun t => if t <? 60000 then WL_CONNECTED else 5 |>
            <| mqtt_connected := fun t => 1010 <=? t |>
            <| mqtt_state := fun t => if 1010 <=? t then MQTT_CONNECTED else -1 |>
            <| mqtt_inbound := fun _ => None |>.


(** The progress callback that [configureOTA] registers prints
    [progress / ( total / 100 )], with [unsigned int] operands; [None] is a
    division by zero, which C++ leaves undefined. *)
Definition otaProgress (progress total : Z) : option Z :=
  let hundredth := total / 100 in
  if hundredth =? 0 then None else Some (progress / hundredth).

(** One world keeps the publish schedule of another: the same last
    publish time, interval and count, and the same messages published. *)
Definition keeps_schedule (w w' : World) : Prop :=
  lastPublishTime w' = lastPublishTime w
  /\ publishInterval w' = publishInterval w
  /\ publishCount w' = publishCount w
  /\ published (trace w') = published (trace w).


(** ** The sentinel of [networkIndex]

    A configuration has at least one network and fewer than 2112 of them,
    so that 2112 is no index of any array. *)
Definition configured (env : Env) : Prop :=
  1 <= Z.of_nat (length (wifiSsidArray env)) < 2112
  /\ Z.of_nat (length (wifiPassArray env)) <= 2112
  /\ Z.of_nat (length (mqttBrokerArray env)) <= 2112
  /\ Z.of_nat (length (mqttPortArray env)) <= 2112.

(** [networkIndex] holds the index of a configured network. *)
Definition linked (env : Env) (w : World) : Prop :=
  0 <= networkIndex w < Z.of_nat (length (wifiSsidArray env)).

(** No condition on the world. *)
Definition anywhere (w : World) : Prop := True.

(** A property of the world that only [networkIndex] bears on. *)
Definition stable (inv : World -> Prop) : Prop :=
  forall w w', networkIndex w' = networkIndex w -> inv w -> inv w'.

(** The fault of an array read at the sentinel. *)
Definition at_sentinel (f : fault) : Prop :=
  match f with
  | IndexOutOfBounds _ i => i = 2112
  | NullDereference _ => False
  end.

(** A computation begun in a world that satisfies [P] reads no array at
    the sentinel, and the world it returns satisfies [Q]. *)
Definition preserves {A : Type} (P Q : World -> Prop) (m : M A) : Prop :=
  forall w, P w ->
    match m w with
    | Returned _ w' => Q w'
    | Restarted _ => True
    | Undefined f _ => ~ at_sentinel f
    end.

(** * Properties *)

Arguments F32.gt : simpl never.
Arguments F32.lt : simpl never.
Arguments F32.ge : simpl never.
Arguments F32.le : simpl never.
Arguments F32.of_int : simpl never.
Arguments F32.add : simpl never.
Arguments F32.mul : simpl never.
Arguments F32.div : simpl never.
Arguments u32 : simpl never.

(** Unfold the plumbing of the monad and of the board. *)
Ltac sketch_unfold :=
  cbv beta iota delta
    [bind ret skip load store emit millis delay blocking
     digitalWrite digitalRead ESP_restart undefined
     Serial_Print Serial_PrintNum Serial_Println Serial_PrintlnNum Serial_Printf
     WiFi_Status mqttClient_connected mqttClient_state].

Ltac sketch_simpl := cbn; unfold constant; cbn.

(** ** Arithmetic *)

Lemma u32_small (z : Z) : 0 <= z < 2 ^ 32 -> u32 z = z.
Proof. intros H. unfold u32. apply Z.mod_small. exact H. Qed.

Lemma u32_range (z : Z) : 0 <= u32 z < 2 ^ 32.
Proof. unfold u32. apply Z.mod_pos_bound. lia. Qed.

(** ** The timer test *)

Lemma due_never_fired (now interval : Z) : due 0 now interval = true.
Proof. reflexivity. Qed.

Lemma due_spec (last now interval : Z) :
  0 <= interval -> now < 2 ^ 32 -> last <> 0 ->
  due last now interval = true <-> interval < now /\ last < now - interval.
Proof.
  intros Hi Hn Hl. unfold due.
  destruct (Z.eqb_spec last 0) as [E | _]; [contradiction | ].
  rewrite orb_false_l, andb_true_iff, !Z.gtb_ltb, !Z.ltb_lt.
  split; intros [H1 H2]; (split; [exact H1 | ]).
  - rewrite u32_small in H2 by lia. exact H2.
  - rewrite u32_small by lia. exact H2.
Qed.

Lemma due_too_early (last now interval : Z) :
  last <> 0 -> now <= interval -> due last now interval = false.
Proof.
  intros Hl Hn. unfold due.
  destruct (Z.eqb_spec last 0) as [E | _]; [contradiction | ].
  rewrite Z.gtb_ltb. destruct (Z.ltb_spec interval now); [lia | reflexivity].
Qed.

(** C4.  Each of the three timers of [loop()] (poll, publish, LED) runs
    its statements exactly when [due] holds of its last firing time, the
    clock and its interval, and does nothing otherwise.  [due] holds whenever
    the last firing time is 0, whatever the clock; with a nonzero last firing
    time it holds only if the clock exceeds the interval and the clock less
    the interval exceeds the last firing time, so it fails while the clock
    has not passed the interval, and it fails for clock 500, interval 1000,
    last firing time 400. *)
Theorem timers_due_check (env : Env) (w : World) (last now interval : Z) :
  0 <= interval -> now < 2 ^ 32 ->
  pollTimer env w
    = (if due (lastPollTime w) (clock w) telemetryInterval
       then pollTelemetry env w else Returned tt w)
  /\ publishTimer env w
    = (if due (lastPublishTime w) (clock w) (publishInterval w)
       then publishDue env w else Returned tt w)
  /\ indicatorTimer env w
    = (if due (lastLedBlinkTime w) (clock w) ledBlinkInterval
       then updateIndicator env w else Returned tt w)
  /\ due 0 now interval = true
  /\ (last <> 0 ->
      (due last now interval = true <-> interval < now /\ last < now - interval))
  /\ (last <> 0 -> now <= interval -> due last now interval = false)
  /\ due 0 500 1000 = true
  /\ due 400 500 1000 = false.
Proof.
  intros Hi Hn.
  split; [ | split; [ | split; [ | split; [ | split; [ | split; [ | split]]]]]].
  - unfold pollTimer, bind, millis, load.
    destruct (due (lastPollTime w) (clock w) telemetryInterval); reflexivity.
  - unfold publishTimer, bind, millis, load.
    destruct (due (lastPublishTime w) (clock w) (publishInterval w)); reflexivity.
  - unfold indicatorTimer, bind, millis, load.
    destruct (due (lastLedBlinkTime w) (clock w) ledBlinkInterval); reflexivity.
  - apply due_never_fired.
  - intros Hl. apply due_spec; assumption.
  - intros Hl Hearly. apply due_too_early; assumption.
  - reflexivity.
  - reflexivity.
Qed.

Lemma timers_due_check_witness :
  pollTimer (bench [] None 0) boot
    = (if due (lastPollTime boot) (clock boot) telemetryInterval
       then pollTelemetry (bench [] None 0) boot else Returned tt boot)
  /\ publishTimer (bench [] None 0) boot
    = (if due (lastPublishTime boot) (clock boot) (publishInterval boot)
       then publishDue (bench [] None 0) boot else Returned tt boot)
  /\ indicatorTimer (bench [] None 0) boot
    = (if due (lastLedBlinkTime boot) (clock boot) ledBlinkInterval
       then updateIndicator (bench [] None 0) boot else Returned tt boot)
  /\ due 0 1500 1000 = true
  /\ (400 <> 0 ->
      (due 400 1500 1000 = true <-> 1000 < 1500 /\ 400 < 1500 - 1000))
  /\ (400 <> 0 -> 1500 <= 1000 -> due 400 1500 1000 = false)
  /\ due 0 500 1000 = true
  /\ due 400 500 1000 = false.
Proof.
  apply (timers_due_check (bench [] None 0) boot 400 1500 1000); lia.
Defined.

(** ** The command dispatcher *)

Lemma echo_trace (payload : string) (w : World) :
  echo payload w = Returned tt (w <| trace := (trace w ++ echoed payload)%list |>).
Proof.
  revert w. induction payload as [ | c rest IH]; intros w.
  - destruct w. unfold echoed. cbn. rewrite app_nil_r. reflexivity.
  - cbn [echo]. unfold bind at 1. unfold Serial_Print at 1. unfold emit, store.
    rewrite IH. destruct w. unfold echoed. cbn. rewrite <- app_assoc. reflexivity.
Qed.

Lemma publishTimer_never_fired (env : Env) (w : World) :
  lastPublishTime w = 0 -> publishTimer env w = publishDue env w.
Proof.
  intros H. unfold publishTimer, bind, millis, load. rewrite H. reflexivity.
Qed.

(** The world a [changeTelemetryInterval] command leaves: the interval is
    replaced when the value exceeds four seconds, the publish timer is
    marked as never fired, and the serial port has the messages. *)
Lemma changeTelemetryInterval_outcome (env : Env) (topic payload : string)
      (value : Z) (w : World) :
  exists log,
    onReceiveCallback env topic payload
      {| doc_command := Some "changeTelemetryInterval"; doc_value := value |} w
    = Returned tt
        (w <| publishInterval := if value >? 4 * MILLIS_IN_SEC then value
                                 else publishInterval w |>
           <| lastPublishTime := 0 |>
           <| trace := log |>).
Proof.
  unfold onReceiveCallback.
  unfold bind at 1. unfold Serial_Printf at 1. unfold emit, store.
  unfold bind at 1. rewrite echo_trace.
  destruct w. cbn.
  destruct (value >? 4000); cbn; eexists; reflexivity.
Qed.

(** C7.  A payload whose document has no [command] member makes
    [doc["command"]] a null pointer, and the dispatcher hands that pointer
    to [strcmp]: the call is undefined, whatever else the payload holds. *)
Theorem missing_command_is_dereferenced
        (env : Env) (topic payload : string) (value : Z) (w : World) :
  fault_of (onReceiveCallback env topic payload
              {| doc_command := None; doc_value := value |} w)
  = Some (NullDereference "command").
Proof.
  unfold onReceiveCallback.
  unfold bind at 1. unfold Serial_Printf at 1. unfold emit, store.
  unfold bind at 1. rewrite echo_trace.
  reflexivity.
Qed.

(** X20.  A command that is present and not known is reported and changes
    nothing but the serial output. *)
Lemma unknown_command_only_logs (env : Env) (topic payload command : string)
      (value : Z) (w : World) :
  command <> "publishTelemetry" ->
  command <> "changeTelemetryInterval" ->
  command <> "publishStats" ->
  onReceiveCallback env topic payload
    {| doc_command := Some command; doc_value := value |} w
  = Returned tt
      (w <| trace := (trace w
                      ++ Serial_printf "Message arrived [%s] " [Str topic]
                      :: echoed payload
                      ++ [Serial_println (Str "");
                          Serial_printf "Unknown command: %s\n" [Str command]])%list |>).
Proof.
  intros H1 H2 H3.
  unfold onReceiveCallback.
  unfold bind at 1. unfold Serial_Printf at 1. unfold emit, store.
  unfold bind at 1. rewrite echo_trace.
  apply String.eqb_neq in H1, H2, H3.
  destruct w. cbn. rewrite H1. cbn. rewrite H2. cbn. rewrite H3.
  unfold Serial_Printf, emit, store. cbn.
  repeat rewrite <- app_assoc. reflexivity.
Qed.

(** ** The LED *)

(** X22.  In the revision with the header, whenever the LED timer fires,
    the level of the LED pin becomes what the behaviour chosen by the pair (WiFi
    associated, MQTT connected) makes of it: lit when both hold, toggled
    when the WiFi is associated and the MQTT session is down, dark when the
    WiFi is not associated, whatever the MQTT state; the firing time is
    recorded and nothing else changes. *)
Lemma indicator_follows_links (env : Env) (w : World) :
  due (lastLedBlinkTime w) (clock w) ledBlinkInterval = true ->
  indicatorTimer env w
  = Returned tt
      (w <| lastLedBlinkTime := clock w |>
         <| ledPin := ledLevel
                        (spec_indicator
                           (WiFi_status env (clock w) =? WL_CONNECTED)
                           (mqtt_state env (clock w) =? MQTT_CONNECTED))
                        (ledPin w) |>).
Proof.
  intros Hdue. unfold indicatorTimer, updateIndicator, toggleLED. sketch_unfold.
  rewrite Hdue. destruct w; sketch_simpl.
  change MQTT_CONNECTED with 0.
  destruct (WiFi_status env clock0 =? WL_CONNECTED); sketch_simpl; [ | reflexivity].
  destruct (mqtt_state env clock0 =? 0); sketch_simpl; [reflexivity | ].
  destruct (ledPin0 =? 1); reflexivity.
Qed.

Lemma indicator_follows_links_witness :
  indicatorTimer (bench [] None 0) boot
  = Returned tt
      (boot <| lastLedBlinkTime := clock boot |>
            <| ledPin := ledLevel
                           (spec_indicator
                              (WiFi_status (bench [] None 0) (clock boot) =? WL_CONNECTED)
                              (mqtt_state (bench [] None 0) (clock boot) =? MQTT_CONNECTED))
                           (ledPin boot) |>).
Proof.
  apply (indicator_follows_links (bench [] None 0) boot).
  reflexivity.
Defined.

(** The header-less revision has no statement for a WiFi that is not
    associated: its LED timer then leaves the pin as it is. *)
Lemma Prior_indicator_without_wifi (env : Env) (w : World) :
  WiFi_status env (clock w) <> WL_CONNECTED ->
  Prior.updateIndicator env w = Returned tt (w <| lastLedBlinkTime := clock w |>).
Proof.
  intros Hdown. apply Z.eqb_neq in Hdown.
  unfold Prior.updateIndicator. sketch_unfold.
  destruct w; sketch_simpl. cbn in Hdown. rewrite Hdown. reflexivity.
Qed.

(** C5.  The LED statements of the header-less revision have no branch for
    a WiFi that is not associated: whenever its LED timer fires with the
    WiFi down, the pin stays as it is.  Take the device from boot: the WiFi
    associates, the broker accepts, and the first iteration of [loop()]
    lights the LED.  A minute later the WiFi has dropped while the session
    is still up.  The next iteration of the header-less revision serves the
    LED timer and leaves the LED lit, where the design gives steady off and
    the revision with the header turns the LED off. *)
Theorem Prior_indicator_stays_lit :
  (forall env w,
      WiFi_status env (clock w) <> WL_CONNECTED ->
      exists w', Prior.updateIndicator env w = Returned tt w' /\ ledPin w' = ledPin w)
  /\ (exists w',
        Prior.run dropping [60000] boot = Returned tt w'
        /\ ledPin w' = 0
        /\ WiFi_status dropping (clock w') <> WL_CONNECTED
        /\ mqtt_connected dropping (clock w') = true
        /\ due (lastLedBlinkTime w') (clock w') ledBlinkInterval = true
        /\ exists w'',
            Prior.loop dropping w' = Returned tt w''
            /\ lastLedBlinkTime w'' <> lastLedBlinkTime w'
            /\ WiFi_status dropping (clock w'') <> WL_CONNECTED
            /\ ledPin w'' = 0)
  /\ (exists w',
        run dropping [60000] boot = Returned tt w'
        /\ ledPin w' = 0
        /\ WiFi_status dropping (clock w') <> WL_CONNECTED
        /\ mqtt_connected dropping (clock w') = true
        /\ exists w'',
            loop dropping w' = Returned tt w''
            /\ ledPin w'' = 1)
  /\ ledLevel (spec_indicator false true) 0 = 1.
Proof.
  split.
  { intros env w Hdown. rewrite (Prior_indicator_without_wifi env w Hdown).
    eexists. split; [reflexivity | ]. destruct w; reflexivity. }
  split.
  { eexists. split; [vm_compute; reflexivity | ].
    split; [reflexivity | ]. split; [vm_compute; discriminate | ].
    split; [reflexivity | ]. split; [reflexivity | ].
    eexists. split; [vm_compute; reflexivity | ].
    split; [vm_compute; discriminate | ].
    split; [vm_compute; discriminate | reflexivity]. }
  split; [ | reflexivity].
  eexists. split; [vm_compute; reflexivity | ].
  split; [reflexivity | ]. split; [vm_compute; discriminate | ].
  split; [reflexivity | ].
  eexists. split; [vm_compute; reflexivity | reflexivity].
Qed.

(** ** The telemetry reader *)

(** C1.  When the sensor read succeeds, [readTelemetry] restarts the
    device if and only if, after the two counters are updated,
    [consecutiveBadTemp] exceeds 4 or [consecutiveBadHumidity] exceeds 4: a
    counter at exactly 4 (the other not above 4) does not restart the
    device, a counter at 5 does. *)
Theorem restart_threshold (env : Env) (w : World) (t h : F32.float) :
  htu21d_read env (clock w) = Some (t, h) ->
  (restarts (readTelemetry env w) = true
   <-> consecutiveBadTemp (world_of (readTelemetry env w)) > 4
       \/ consecutiveBadHumidity (world_of (readTelemetry env w)) > 4)
  /\ (consecutiveBadTemp (world_of (readTelemetry env w)) = 4 ->
      consecutiveBadHumidity (world_of (readTelemetry env w)) <= 4 ->
      restarts (readTelemetry env w) = false)
  /\ (consecutiveBadTemp (world_of (readTelemetry env w)) = 5 ->
      restarts (readTelemetry env w) = true).
Proof.
  intros Hread.
  assert (E : restarts (readTelemetry env w)
              = (consecutiveBadTemp (world_of (readTelemetry env w)) >? 4)
                || (consecutiveBadHumidity (world_of (readTelemetry env w)) >? 4)).
  { unfold readTelemetry. sketch_unfold. destruct w; cbn in *. rewrite Hread.
    destruct (F32.gt t (F32.of_int (-30)) || F32.lt t (F32.of_int 90));
      destruct (F32.ge h (F32.of_int 0) || F32.le h (F32.of_int 100));
      sketch_simpl.
    - reflexivity.
    - destruct (u32 (consecutiveBadHumidity0 + 1) >? 4) eqn:E;
        cbn; rewrite ?E; reflexivity.
    - destruct (u32 (consecutiveBadTemp0 + 1) >? 4) eqn:E;
        cbn; rewrite ?E; reflexivity.
    - destruct (u32 (consecutiveBadTemp0 + 1) >? 4) eqn:E;
        destruct (u32 (consecutiveBadHumidity0 + 1) >? 4) eqn:E';
        cbn; rewrite ?E, ?E'; reflexivity. }
  split; [ | split].
  - rewrite E, orb_true_iff, !Z.gtb_ltb, !Z.ltb_lt.
    split; intros [H | H]; (left; lia) || (right; lia).
  - intros Ht Hh. rewrite E. apply orb_false_iff.
    split; rewrite Z.gtb_ltb; apply Z.ltb_ge; lia.
  - intros Ht. rewrite E. apply orb_true_iff. left.
    rewrite Z.gtb_ltb. apply Z.ltb_lt. lia.
Qed.

Lemma restart_threshold_witness :
  (restarts (readTelemetry nanReading fourBadTemps) = true
   <-> consecutiveBadTemp (world_of (readTelemetry nanReading fourBadTemps)) > 4
       \/ consecutiveBadHumidity (world_of (readTelemetry nanReading fourBadTemps)) > 4)
  /\ (consecutiveBadTemp (world_of (readTelemetry nanReading fourBadTemps)) = 4 ->
      consecutiveBadHumidity (world_of (readTelemetry nanReading fourBadTemps)) <= 4 ->
      restarts (readTelemetry nanReading fourBadTemps) = false)
  /\ (consecutiveBadTemp (world_of (readTelemetry nanReading fourBadTemps)) = 5 ->
      restarts (readTelemetry nanReading fourBadTemps) = true).
Proof.
  apply (restart_threshold nanReading fourBadTemps F32.nan (F32.of_int 50)).
  reflexivity.
Defined.

(** The fifth bad reading in a row restarts the device, with the counter
    at 5: the restart does not wait for the counter to exceed 5. *)
Lemma restart_at_five :
  htu21d_read nanReading (clock fourBadTemps) = Some (F32.nan, F32.of_int 50)
  /\ restarts (readTelemetry nanReading fourBadTemps) = true
  /\ consecutiveBadTemp (world_of (readTelemetry nanReading fourBadTemps)) = 5
  /\ consecutiveBadHumidity (world_of (readTelemetry nanReading fourBadTemps)) = 0
  /\ ~ (restarts (readTelemetry nanReading fourBadTemps) = true
        <-> consecutiveBadTemp (world_of (readTelemetry nanReading fourBadTemps)) > 5
            \/ consecutiveBadHumidity (world_of (readTelemetry nanReading fourBadTemps)) > 5).
Proof.
  assert (R : restarts (readTelemetry nanReading fourBadTemps) = true)
    by (vm_compute; reflexivity).
  assert (T : consecutiveBadTemp (world_of (readTelemetry nanReading fourBadTemps)) = 5)
    by (vm_compute; reflexivity).
  assert (H : consecutiveBadHumidity (world_of (readTelemetry nanReading fourBadTemps)) = 0)
    by (vm_compute; reflexivity).
  split; [reflexivity | ].
  split; [exact R | ]. split; [exact T | ]. split; [exact H | ].
  rewrite R, T, H. intros [Hrestart _].
  destruct (Hrestart eq_refl) as [Hgt | Hgt]; lia.
Qed.

(** The fourth bad reading in a row does not restart the device. *)
Lemma no_restart_at_four :
  restarts (readTelemetry nanReading threeBadTemps) = false
  /\ consecutiveBadTemp (world_of (readTelemetry nanReading threeBadTemps)) = 4.
Proof. split; vm_compute; reflexivity. Qed.

(** The test of the temperature band, [t > -30 || t < 90], holds of every
    temperature that is a number. *)
Lemma temperature_test_rejects_only_nan (t : F32.float) :
  F32.gt t (F32.of_int (-30)) || F32.lt t (F32.of_int 90) = negb (F32.is_nan t).
Proof.
  destruct t as [s | s | | s m e];
    [destruct s; reflexivity | destruct s; reflexivity | reflexivity | ].
  destruct s.
  - replace (F32.lt (S754_finite true m e) (F32.of_int 90)) with true by reflexivity.
    apply orb_true_r.
  - reflexivity.
Qed.

(** The test of the humidity band, [h >= 0 || h <= 100], holds of every
    humidity that is a number. *)
Lemma humidity_test_rejects_only_nan (h : F32.float) :
  F32.ge h (F32.of_int 0) || F32.le h (F32.of_int 100) = negb (F32.is_nan h).
Proof.
  destruct h as [s | s | | s m e];
    [destruct s; reflexivity | destruct s; reflexivity | reflexivity | ].
  destruct s.
  - replace (F32.le (S754_finite true m e) (F32.of_int 100)) with true by reflexivity.
    apply orb_true_r.
  - reflexivity.
Qed.

(** So every reading made of numbers is stored, whatever its size, and
    clears both counters. *)
Lemma readTelemetry_stores_any_number (env : Env) (w : World) (t h : F32.float) :
  htu21d_read env (clock w) = Some (t, h) ->
  F32.is_nan t = false -> F32.is_nan h = false ->
  readTelemetry env w
  = Returned tt
      (w <| rssi := WiFi_RSSI env (clock w) |>
         <| clock := u32 (clock w + latency env (clock w)) |>
         <| tempC := t |>
         <| tempF := F32.add (F32.div (F32.mul t (F32.of_int 9)) (F32.of_int 5))
                             (F32.of_int 32) |>
         <| consecutiveBadTemp := 0 |>
         <| humidity := h |>
         <| consecutiveBadHumidity := 0 |>
         <| lastPollTime := u32 (clock w + latency env (clock w)) |>).
Proof.
  intros Hread Ht Hh. unfold readTelemetry. sketch_unfold.
  destruct w; cbn in *. rewrite Hread.
  rewrite temperature_test_rejects_only_nan, humidity_test_rejects_only_nan, Ht, Hh.
  reflexivity.
Qed.

(** C2.  A reading of 100 degrees Celsius and 110 percent humidity lies
    outside both bands (100 is not below 90, 110 is not at most 100), and
    [readTelemetry] accepts it: both values are stored and both counters
    are cleared, with no rejection on the serial port. *)
Theorem out_of_band_reading_accepted :
  F32.lt (F32.of_int 100) (F32.of_int 90) = false
  /\ F32.le (F32.of_int 110) (F32.of_int 100) = false
  /\ readTelemetry hotAndWet twoBadEach
     = Returned tt
         (boot <| rssi := -60 |>
               <| tempC := F32.of_int 100 |>
               <| tempF := F32.of_int 212 |>
               <| humidity := F32.of_int 110 |>).
Proof. repeat split; vm_compute; reflexivity. Qed.

(** ** The WiFi connection *)

Lemma checkForSSID_returns env ssid w :
  exists r w', checkForSSID env ssid w = Returned r w'.
Proof.
  unfold checkForSSID. sketch_unfold.
  destruct (u8 (Z.of_nat (length (WiFi_scanNetworks env (clock w)))) =? 0).
  - do 2 eexists. reflexivity.
  - destruct (existsb _ _); do 2 eexists; reflexivity.
Qed.

Lemma awaitConnection_returns env turns start w :
  exists w', awaitConnection env turns start w = Returned tt w'.
Proof.
  revert w. induction turns as [ | turns IH]; intros w.
  - eexists. reflexivity.
  - cbn [awaitConnection]. sketch_unfold.
    destruct (negb _ && _).
    + apply IH.
    + eexists. reflexivity.
Qed.

Lemma subscript_inside {A} name (a : list A) i w :
  0 <= i < Z.of_nat (length a) ->
  exists x, subscript name a i w = Returned x w.
Proof.
  intros H. unfold subscript.
  destruct (nth_error a (Z.to_nat i)) eqn:E.
  - eexists. reflexivity.
  - apply nth_error_None in E. lia.
Qed.

Lemma subscript_outside {A} name (a : list A) i w :
  Z.of_nat (length a) <= i ->
  subscript name a i w = Undefined (IndexOutOfBounds name i) w.
Proof.
  intros H. unfold subscript.
  destruct (nth_error a (Z.to_nat i)) eqn:E.
  - assert (nth_error a (Z.to_nat i) <> None) by congruence.
    apply nth_error_Some in H0. lia.
  - reflexivity.
Qed.

Lemma subscripts_inside {A B} env nameA (a : list A) nameB (b : list B) i w :
  0 <= i < Z.of_nat (length a) ->
  0 <= i < Z.of_nat (length b) ->
  exists both, subscripts env nameA a nameB b i w = Returned both w.
Proof.
  intros Ha Hb. unfold subscripts.
  destruct (subscript_inside nameA a i w Ha) as [x Ex].
  destruct (subscript_inside nameB b i w Hb) as [y Ey].
  exists (x, y).
  destruct (rightToLeft env); unfold bind; rewrite ?Ex, ?Ey; cbn;
    rewrite ?Ex, ?Ey; reflexivity.
Qed.


Lemma wifiMultiConnect_for_overruns env :
  (forall t, WiFi_status env t <> WL_CONNECTED) ->
  length (wifiPassArray env) = length (wifiSsidArray env) ->
  forall remaining i w,
    0 <= i <= Z.of_nat (length (wifiSsidArray env)) ->
    Z.of_nat (length (wifiSsidArray env)) - i < Z.of_nat remaining ->
    fault_of (wifiMultiConnect_for env remaining i w)
    = Some (IndexOutOfBounds "wifiSsidArray" (Z.of_nat (length (wifiSsidArray env)))).
Proof.
  intros Hnever Hlen.
  induction remaining as [ | remaining IH]; intros i w Hi Hrem; [lia | ].
  cbn [wifiMultiConnect_for].
  destruct (Z.eq_dec i (Z.of_nat (length (wifiSsidArray env)))) as [-> | Hlt].
  - unfold bind at 1. rewrite subscript_outside by lia. reflexivity.
  - unfold bind at 1.
    destruct (subscript_inside "wifiSsidArray" (wifiSsidArray env) i w) as [ssid ->]; [lia | ].
    unfold bind at 1.
    destruct (subscript_inside "wifiPassArray" (wifiPassArray env) i w) as [pass ->]; [lia | ].
    sketch_unfold.
    match goal with
    | |- context [checkForSSID env ssid ?W] =>
        destruct (checkForSSID_returns env ssid W) as (r & w1 & ->)
    end.
    destruct (negb (r =? 0)).
    + match goal with
      | |- context [awaitConnection env ?n ?s ?W] =>
          destruct (awaitConnection_returns env n s W) as (w2 & ->)
      end.
      match goal with
      | |- context [WiFi_status env ?t =? WL_CONNECTED] =>
          destruct (Z.eqb_spec (WiFi_status env t) WL_CONNECTED) as [E | _];
          [exfalso; exact (Hnever t E) | ]
      end.
      apply IH; lia.
    + apply IH; lia.
Qed.

(** Whenever no network associates, the loop of [wifiMultiConnect] reads
    [wifiSsidArray] one past its last entry: its bound is the size of the
    array in bytes, not its number of entries. *)
Lemma wifiMultiConnect_overruns (env : Env) (w : World) :
  (forall t, WiFi_status env t <> WL_CONNECTED) ->
  length (wifiPassArray env) = length (wifiSsidArray env) ->
  wifiSsidArray env <> [] ->
  fault_of (wifiMultiConnect env w)
  = Some (IndexOutOfBounds "wifiSsidArray" (Z.of_nat (length (wifiSsidArray env)))).
Proof.
  intros Hnever Hlen Hsome. unfold wifiMultiConnect. sketch_unfold.
  change (LED_PIN =? LED_PIN) with true. cbv iota.
  apply wifiMultiConnect_for_overruns; try assumption.
  - lia.
  - unfold sizeof_pointer_array, SIZEOF_POINTER.
    destruct (wifiSsidArray env); [contradiction | ]. cbn [length]. lia.
Qed.

(** C9.  With four networks configured and none of them in range,
    [wifiMultiConnect] goes on after the fourth entry and reads
    [wifiSsidArray[ 4 ]], past the end of the array. *)
Theorem wifiMultiConnect_reads_past_the_end :
  length (wifiSsidArray outOfRange) = 4%nat
  /\ fault_of (wifiMultiConnect outOfRange boot)
     = Some (IndexOutOfBounds "wifiSsidArray" 4).
Proof. split; vm_compute; reflexivity. Qed.

(** Within the array the loop does what the design says: the networks that
    the scan does not see are skipped without a [WiFi.begin], and the first
    one that associates ends the search and gives [networkIndex]. *)
Lemma wifiMultiConnect_takes_first_success :
  exists w',
    wifiMultiConnect atHome boot = Returned tt w'
    /\ networkIndex w' = 3
    /\ ipAddress w' = "192.168.0.7"
    /\ filter (fun e => match e with WiFi_begin _ _ => true | _ => false end) (trace w')
       = [WiFi_begin "Syrinx" "By-Tor"].
Proof.
  eexists. split; [vm_compute; reflexivity | ].
  repeat split; vm_compute; reflexivity.
Qed.

(** *** The wait for the association ends *)

Lemma u32_elapsed (start d : Z) :
  0 <= d < 2 ^ 32 -> u32 (u32 (start + d) - start) = d.
Proof.
  intros H. unfold u32. rewrite Zminus_mod_idemp_l.
  replace (start + d - start) with d by lia. apply Z.mod_small. exact H.
Qed.

Lemma u32_add_l (a b : Z) : u32 (u32 a + b) = u32 (a + b).
Proof. unfold u32. apply Zplus_mod_idemp_l. Qed.

Lemma awaitConnection_from (env : Env) (start : Z) :
  forall (turns : nat) (k : Z) (w : World),
    clock w = u32 (start + MILLIS_IN_SEC * k) ->
    0 <= k <= 10 ->
    10 - k < Z.of_nat turns ->
    exists w',
      awaitConnection env turns start w = Returned tt w'
      /\ (WiFi_status env (clock w') = WL_CONNECTED
          \/ wifiConnectionTimeout <= u32 (clock w' - start)).
Proof.
  induction turns as [ | turns IH]; intros k w Hclock Hk Hturns; [lia | ].
  cbn [awaitConnection]. sketch_unfold.
  destruct (Z.eqb_spec (WiFi_status env (clock w)) WL_CONNECTED) as [Hup | Hdown].
  - exists w. split; [reflexivity | left; exact Hup].
  - cbn [negb andb].
    destruct (Z.ltb_spec (u32 (clock w - start)) wifiConnectionTimeout) as [Hearly | Hlate].
    + assert (Hk' : k < 10).
      { rewrite Hclock, u32_elapsed in Hearly;
          unfold wifiConnectionTimeout, MILLIS_IN_SEC in *; lia. }
      apply (IH (k + 1)); [ | lia | lia].
      match goal with
      | |- clock ?W = _ =>
          replace (clock W) with (u32 (clock w + MILLIS_IN_SEC))
            by (destruct w; reflexivity)
      end.
      rewrite Hclock, u32_add_l. f_equal. lia.
    + exists w. split; [reflexivity | right; exact Hlate].
Qed.

Lemma awaitConnection_exits (env : Env) (w : World) :
  0 <= clock w < 2 ^ 32 ->
  exists w',
    awaitConnection env awaitTurns (clock w) w = Returned tt w'
    /\ (WiFi_status env (clock w') = WL_CONNECTED
        \/ wifiConnectionTimeout <= u32 (clock w' - clock w)).
Proof.
  intros Hclock. apply (awaitConnection_from env (clock w) awaitTurns 0).
  - rewrite Z.mul_0_r, Z.add_0_r. symmetry. apply u32_small. exact Hclock.
  - lia.
  - vm_compute. reflexivity.
Qed.

(** ** The sentinel of [networkIndex] *)




(** ** The reconnect cooldown *)

Lemma due_within_cooldown (last now : Z) :
  last <> 0 -> 0 <= last < 2 ^ 32 -> 0 <= now < 2 ^ 32 ->
  u32 (now - last) <= mqttReconnectCooldown ->
  due last now mqttReconnectCooldown = false.
Proof.
  intros Hl Hlast Hnow Hwithin. unfold due.
  destruct (Z.eqb_spec last 0) as [E | _]; [contradiction | ].
  rewrite orb_false_l. apply andb_false_iff.
  unfold mqttReconnectCooldown in *.
  destruct (Z.gtb_spec now 20000) as [Hlate | Hearly]; [right | left; reflexivity].
  rewrite Z.gtb_ltb. apply Z.ltb_ge.
  rewrite (u32_small (now - 20000)) by lia.
  destruct (Z_lt_le_dec now last) as [Hwrap | Hfwd]; [lia | ].
  rewrite u32_small in Hwithin by lia. lia.
Qed.

Lemma mqttAttempt_records (env : Env) (attemptNumber maxAttempts : Z) (w : World) :
  lastMqttConnectionTime (world_of (mqttAttempt env attemptNumber maxAttempts w))
  = u32 (clock w + latency env (clock w)).
Proof.
  unfold mqttAttempt. sketch_unfold. destruct w; cbn.
  destruct (mqtt_connect env _ clock0); sketch_simpl.
  - destruct (mqtt_setBufferSize env BUFFER_SIZE _); sketch_simpl; [ | reflexivity].
    destruct (mqtt_subscribe env mqttCommandTopic _); reflexivity.
  - destruct (mqtt_state env _ =? -4); [ | destruct (mqtt_state env _ =? 2)];
      destruct (maxAttempts >? 1); reflexivity.
Qed.


(** C6.  An attempt to connect records the time at which
    [mqttClient.connect] came back in [lastMqttConnectionTime], whether the
    broker accepted or refused.  A call of [mqttMultiConnect] that comes
    within [mqttReconnectCooldown] (20 seconds) of a recorded time that is
    not 0 does nothing: it returns at once and leaves the world as it
    was.  (A recorded time of 0 reads as no attempt yet.) *)
Theorem mqttMultiConnect_cooldown (env : Env) (maxAttempts : Z) (w : World) :
  lastMqttConnectionTime w <> 0 ->
  0 <= lastMqttConnectionTime w < 2 ^ 32 ->
  0 <= clock w < 2 ^ 32 ->
  u32 (clock w - lastMqttConnectionTime w) <= mqttReconnectCooldown ->
  mqttMultiConnect env maxAttempts w = Returned tt w
  /\ (forall attemptNumber w0,
        lastMqttConnectionTime
          (world_of (mqttAttempt env attemptNumber maxAttempts w0))
        = u32 (clock w0 + latency env (clock w0))).
Proof.
  intros Hset Hlast Hclock Hwithin. split.
  - unfold mqttMultiConnect. sketch_unfold.
    rewrite due_within_cooldown by assumption. reflexivity.
  - intros attemptNumber w0. apply mqttAttempt_records.
Qed.

Lemma mqttMultiConnect_cooldown_witness :
  mqttMultiConnect refusing 1 recentAttempt = Returned tt recentAttempt
  /\ (forall attemptNumber w0,
        lastMqttConnectionTime
          (world_of (mqttAttempt refusing attemptNumber 1 w0))
        = u32 (clock w0 + latency refusing (clock w0))).
Proof.
  apply (mqttMultiConnect_cooldown refusing 1 recentAttempt).
  - vm_compute. discriminate.
  - vm_compute. split; [discriminate | reflexivity].
  - vm_compute. split; [discriminate | reflexivity].
  - vm_compute. discriminate.
Defined.

(** An attempt that ends at the very millisecond at which [millis()] rolls
    over records the time 0.  The next call, a second later, is within the
    cooldown of that time and connects all the same. *)
Lemma cooldown_lost_at_rollover :
  exists w1,
    mqttMultiConnect refusing 1 beforeRollover = Returned tt w1
    /\ lastMqttConnectionTime w1
       = u32 (clock beforeRollover + latency refusing (clock beforeRollover))
    /\ lastMqttConnectionTime w1 = 0
    /\ u32 (clock w1 - lastMqttConnectionTime w1) <= mqttReconnectCooldown
    /\ mqttMultiConnect refusing 1 w1 <> Returned tt w1.
Proof.
  eexists. split; [vm_compute; reflexivity | ].
  split; [vm_compute; reflexivity | ].
  split; [vm_compute; reflexivity | ].
  split; [vm_compute; discriminate | ].
  intros H.
  apply (f_equal (fun o => length (trace (world_of o)))) in H.
  vm_compute in H. discriminate H.
Qed.

(** * Further properties of the sketch *)

(** ** The timer test over time *)

(** X1.  A timer that is due stays due while the clock moves on towards
    its roll-over: nothing but serving the timer (which records a new
    firing time) makes the test fail again. *)
Theorem due_stays_due (last now later interval : Z) :
  0 <= interval -> now <= later < 2 ^ 32 ->
  due last now interval = true -> due last later interval = true.
Proof.
  intros Hi Hlater Hdue.
  destruct (Z.eq_dec last 0) as [-> | Hlast]; [reflexivity | ].
  apply due_spec in Hdue; [ | lia | lia | exact Hlast].
  apply due_spec; [lia | lia | exact Hlast | lia].
Qed.

Lemma due_stays_due_witness : due 400 70000 1000 = true.
Proof.
  apply (due_stays_due 400 1500 70000 1000); [lia | lia | reflexivity].
Defined.

(** X2.  A timer whose last firing lies within one interval of the
    roll-over of [millis()] (last + interval >= 2^32 - 1, last not 0) is
    not due at any value of the clock: after the roll-over the clock is
    small again and the test, which never subtracts below zero, cannot
    hold until the firing time is overwritten. *)
Theorem due_stalls_at_rollover (last now interval : Z) :
  last <> 0 -> 0 <= interval ->
  2 ^ 32 - 1 <= last + interval ->
  0 <= now < 2 ^ 32 ->
  due last now interval = false.
Proof.
  intros Hlast Hi Hnear Hnow.
  destruct (due last now interval) eqn:E; [ | reflexivity].
  apply due_spec in E; [ | lia | lia | exact Hlast]. lia.
Qed.

Lemma due_stalls_at_rollover_witness :
  due (2 ^ 32 - 5000) 3000 telemetryInterval = false.
Proof.
  apply (due_stalls_at_rollover (2 ^ 32 - 5000) 3000 telemetryInterval);
    unfold telemetryInterval, MILLIS_IN_SEC; lia.
Defined.

(** ** The LED *)

(** X3.  [toggleLED] changes nothing but the LED pin.  A pin at 0 or 1
    goes to the other level, and two calls in a row leave the world as it
    was. *)
Theorem toggleLED_involution (w : World) :
  ledPin w = 0 \/ ledPin w = 1 ->
  toggleLED w = Returned tt (w <| ledPin := 1 - ledPin w |>)
  /\ (toggleLED;; toggleLED) w = Returned tt w.
Proof.
  intros Hlevel. unfold toggleLED. sketch_unfold.
  change (LED_PIN =? LED_PIN) with true. cbv iota.
  destruct w; cbn in *.
  destruct Hlevel as [-> | ->]; split; reflexivity.
Qed.

Lemma toggleLED_involution_witness :
  toggleLED boot = Returned tt (boot <| ledPin := 1 - ledPin boot |>)
  /\ (toggleLED;; toggleLED) boot = Returned tt boot.
Proof.
  apply (toggleLED_involution boot). left. reflexivity.
Defined.

(** ** The telemetry reader *)

(** X4.  When the sensor read fails, [readTelemetry] stores no reading,
    leaves both counters as they were and does not restart the device,
    whatever the counters hold; it records the signal strength and the time
    of the poll. *)
Theorem readTelemetry_read_failure (env : Env) (w : World) :
  htu21d_read env (clock w) = None ->
  readTelemetry env w
  = Returned tt
      (w <| rssi := WiFi_RSSI env (clock w) |>
         <| clock := u32 (clock w + latency env (clock w)) |>
         <| lastPollTime := u32 (clock w + latency env (clock w)) |>).
Proof.
  intros Hread. unfold readTelemetry. sketch_unfold.
  destruct w; cbn in *. rewrite Hread. reflexivity.
Qed.

Lemma readTelemetry_read_failure_witness :
  readTelemetry outOfRange fourBadTemps
  = Returned tt
      (fourBadTemps
         <| rssi := WiFi_RSSI outOfRange (clock fourBadTemps) |>
         <| clock := u32 (clock fourBadTemps + latency outOfRange (clock fourBadTemps)) |>
         <| lastPollTime :=
              u32 (clock fourBadTemps + latency outOfRange (clock fourBadTemps)) |>).
Proof.
  apply (readTelemetry_read_failure outOfRange fourBadTemps). reflexivity.
Defined.

(** X5.  After a successful sensor read each channel is settled by its
    own value alone.  A temperature that is a number is stored, converted
    to Fahrenheit and clears [consecutiveBadTemp]; one that is not a number
    leaves [tempC] and [tempF] as they were and adds one to the counter.
    The humidity does the same with [humidity] and
    [consecutiveBadHumidity].  Neither channel touches the other's value
    or counter, also when the call ends in a restart. *)
Theorem readTelemetry_channels (env : Env) (w : World) (t h : F32.float) :
  htu21d_read env (clock w) = Some (t, h) ->
  tempC (world_of (readTelemetry env w))
    = (if F32.is_nan t then tempC w else t)
  /\ tempF (world_of (readTelemetry env w))
    = (if F32.is_nan t then tempF w else toFahrenheit t)
  /\ consecutiveBadTemp (world_of (readTelemetry env w))
    = (if F32.is_nan t then u32 (consecutiveBadTemp w + 1) else 0)
  /\ humidity (world_of (readTelemetry env w))
    = (if F32.is_nan h then humidity w else h)
  /\ consecutiveBadHumidity (world_of (readTelemetry env w))
    = (if F32.is_nan h then u32 (consecutiveBadHumidity w + 1) else 0).
Proof.
  intros Hread. unfold readTelemetry. sketch_unfold.
  destruct w; cbn in *. rewrite Hread.
  rewrite temperature_test_rejects_only_nan, humidity_test_rejects_only_nan.
  destruct (F32.is_nan t), (F32.is_nan h); sketch_simpl.
  - destruct (u32 (consecutiveBadTemp0 + 1) >? 4);
      destruct (u32 (consecutiveBadHumidity0 + 1) >? 4);
      cbn; repeat split; reflexivity.
  - destruct (u32 (consecutiveBadTemp0 + 1) >? 4);
      cbn; repeat split; reflexivity.
  - destruct (u32 (consecutiveBadHumidity0 + 1) >? 4);
      cbn; repeat split; reflexivity.
  - repeat split; reflexivity.
Qed.

Lemma readTelemetry_channels_witness :
  tempC (world_of (readTelemetry nanReading fourBadTemps))
    = (if F32.is_nan F32.nan then tempC fourBadTemps else F32.nan)
  /\ tempF (world_of (readTelemetry nanReading fourBadTemps))
    = (if F32.is_nan F32.nan then tempF fourBadTemps else toFahrenheit F32.nan)
  /\ consecutiveBadTemp (world_of (readTelemetry nanReading fourBadTemps))
    = (if F32.is_nan F32.nan then u32 (consecutiveBadTemp fourBadTemps + 1) else 0)
  /\ humidity (world_of (readTelemetry nanReading fourBadTemps))
    = (if F32.is_nan (F32.of_int 50) then humidity fourBadTemps else F32.of_int 50)
  /\ consecutiveBadHumidity (world_of (readTelemetry nanReading fourBadTemps))
    = (if F32.is_nan (F32.of_int 50)
       then u32 (consecutiveBadHumidity fourBadTemps + 1) else 0).
Proof.
  apply (readTelemetry_channels nanReading fourBadTemps F32.nan (F32.of_int 50)).
  reflexivity.
Defined.

(** ** The publisher *)

Lemma published_app (a b : list event) :
  published (a ++ b) = (published a ++ published b)%list.
Proof. unfold published. apply flat_map_app. Qed.

(** One per-field publish: the message goes out whatever the broker
    answers, and only the serial port hears of the answer. *)
Lemma publishField_trace (env : Env) (topic : string) (message : payload) (w : World) :
  exists extra,
    publishField env topic message w
    = Returned tt (w <| trace := (trace w ++ extra)%list |>)
    /\ published extra = [topic].
Proof.
  unfold publishField, mqttClient_publish. sketch_unfold.
  destruct (mqtt_publish env topic (clock w)).
  - exists [Mqtt_publish topic message; Serial_printf "  %s\n" [Str topic]].
    split; [ | reflexivity]. destruct w; cbn. rewrite <- app_assoc. reflexivity.
  - exists [Mqtt_publish topic message].
    split; [ | reflexivity]. destruct w; reflexivity.
Qed.

Lemma dtostrf_fits (x : F32.float) (w : World) :
  printable x = true -> dtostrf x 20 w = Returned tt w.
Proof. unfold printable, dtostrf. intros ->. reflexivity. Qed.

Lemma dtostrf_overruns (x : F32.float) (w : World) :
  printable x = false -> dtostrf x 20 w = Undefined (IndexOutOfBounds "buffer" 20) w.
Proof. unfold printable, dtostrf. intros ->. reflexivity. Qed.

(** Work through the per-field publishes of [publishTelemetry]. *)
Ltac publish_fields env :=
  repeat (first
    [ rewrite dtostrf_fits by assumption
    | match goal with
      | |- context [publishField env ?t ?m ?W] =>
          let x := fresh "extra" in
          let Hx := fresh "Hextra" in
          destruct (publishField_trace env t m W) as (x & -> & Hx)
      end ];
    cbn -[publishField dtostrf]).

(** X6.  [publishTelemetry] hands the aggregate message to the broker
    first.  If the broker refuses it, the call publishes no field and
    returns.  If the broker takes it and the texts of [tempC], [tempF] and
    [humidity] fit the 20-byte buffer, the call hands over each of the nine
    per-field messages in a fixed order, whatever the broker answers to any
    of them, and returns.  In both cases [lastPublishTime] becomes the time
    of the call and no other global changes. *)
Theorem publishTelemetry_publishes (env : Env) (w : World) :
  (mqtt_publish env mqttTopic (clock w) = true ->
   printable (tempC w) = true /\ printable (tempF w) = true
   /\ printable (humidity w) = true) ->
  exists w',
    publishTelemetry env w = Returned tt w'
    /\ w' = w <| lastPublishTime := clock w |> <| trace := trace w' |>
    /\ published (trace w')
       = (published (trace w)
          ++ mqttTopic
          :: (if mqtt_publish env mqttTopic (clock w)
              then [sketchTopic; macTopic; ipTopic; rssiTopic; publishCountTopic;
                    notesTopic; tempCTopic; tempFTopic; humidityTopic]
              else []))%list.
Proof.
  intros Hfit.
  unfold publishTelemetry, mqttClient_publish. sketch_unfold.
  destruct (mqtt_publish env mqttTopic (clock w)) eqn:Hsent.
  - destruct (Hfit eq_refl) as (Hc & Hf & Hh). clear Hfit.
    destruct w; cbn -[publishField dtostrf] in *.
    publish_fields env.
    eexists. split; [reflexivity | ]. cbn. split; [reflexivity | ].
    repeat rewrite published_app.
    rewrite Hextra, Hextra0, Hextra1, Hextra2, Hextra3, Hextra4, Hextra5,
      Hextra6, Hextra7.
    cbn. repeat rewrite <- app_assoc. cbn. rewrite ?app_nil_r. reflexivity.
  - destruct w; cbn in *.
    eexists. split; [reflexivity | ]. cbn. split; [reflexivity | ].
    repeat rewrite published_app. cbn. repeat rewrite <- app_assoc.
    cbn. rewrite ?app_nil_r. reflexivity.
Qed.

Lemma publishTelemetry_publishes_witness :
  exists w',
    publishTelemetry commanded online = Returned tt w'
    /\ w' = online <| lastPublishTime := clock online |> <| trace := trace w' |>
    /\ published (trace w')
       = (published (trace online)
          ++ mqttTopic
          :: (if mqtt_publish commanded mqttTopic (clock online)
              then [sketchTopic; macTopic; ipTopic; rssiTopic; publishCountTopic;
                    notesTopic; tempCTopic; tempFTopic; humidityTopic]
              else []))%list.
Proof.
  apply (publishTelemetry_publishes commanded online).
  intros _. repeat split; vm_compute; reflexivity.
Defined.

(** X7.  [publishStats] returns and changes nothing but the trace
    whenever the MQTT session is down or [networkIndex] lies within the
    broker and port arrays; it hands the status message to the broker
    exactly when the session is up. *)
Theorem publishStats_publishes (env : Env) (w : World) :
  mqtt_connected env (clock w) = false
  \/ (0 <= networkIndex w < Z.of_nat (length (mqttBrokerArray env))
      /\ networkIndex w < Z.of_nat (length (mqttPortArray env))) ->
  exists w',
    publishStats env w = Returned tt w'
    /\ w' = w <| trace := trace w' |>
    /\ published (trace w')
       = (published (trace w)
          ++ (if mqtt_connected env (clock w) then [mqttStatsTopic] else []))%list.
Proof.
  intros Hsafe. unfold publishStats, mqttClient_publish. sketch_unfold.
  destruct w; cbn -[subscripts] in *.
  destruct (mqtt_connected env clock0) eqn:Hup; cbn -[subscripts].
  - destruct Hsafe as [Hdown | [Hbroker Hport]]; [discriminate | ].
    rewrite Hup. cbn -[subscripts].
    destruct (mqtt_publish env mqttStatsTopic clock0); cbn -[subscripts].
    + match goal with
      | |- context [subscripts env ?na ?a ?nb ?b ?i ?W] =>
          destruct (subscripts_inside env na a nb b i W) as [both ->];
          [exact Hbroker | lia | ]
      end.
      eexists. split; [reflexivity | ]. cbn. split; [reflexivity | ].
      repeat rewrite published_app. cbn. repeat rewrite <- app_assoc.
      cbn. rewrite ?app_nil_r. reflexivity.
    + eexists. split; [reflexivity | ]. cbn. split; [reflexivity | ].
      repeat rewrite published_app. cbn. repeat rewrite <- app_assoc.
      cbn. rewrite ?app_nil_r. reflexivity.
  - eexists. split; [reflexivity | ]. cbn. split; [reflexivity | ].
    repeat rewrite published_app. cbn. rewrite ?app_nil_r. reflexivity.
Qed.

Lemma publishStats_publishes_witness :
  exists w',
    publishStats outOfRange boot = Returned tt w'
    /\ w' = boot <| trace := trace w' |>
    /\ published (trace w')
       = (published (trace boot)
          ++ (if mqtt_connected outOfRange (clock boot)
              then [mqttStatsTopic] else []))%list.
Proof.
  apply (publishStats_publishes outOfRange boot). left. reflexivity.
Defined.

(** ** printTelemetry *)

(** X8.  [printTelemetry] only prints: whenever [networkIndex] is the
    sentinel 2112 or lies within the broker and port arrays it returns,
    no global changes and nothing is published. *)
Theorem printTelemetry_only_prints (env : Env) (w : World) :
  networkIndex w = 2112
  \/ (0 <= networkIndex w < Z.of_nat (length (mqttBrokerArray env))
      /\ networkIndex w < Z.of_nat (length (mqttPortArray env))) ->
  exists w',
    printTelemetry env w = Returned tt w'
    /\ w' = w <| trace := trace w' |>
    /\ published (trace w') = published (trace w).
Proof.
  intros Hsafe. unfold printTelemetry. sketch_unfold.
  destruct w; cbn -[subscripts] in *.
  assert (Hprints : forall s, published s = [] ->
                              published (trace0 ++ s) = published trace0).
  { intros s Hs. rewrite published_app, Hs. apply app_nil_r. }
  destruct (WiFi_status env clock0 =? 3); cbn -[subscripts];
    (destruct (Z.eqb_spec networkIndex0 2112) as [Hunset | Hset]; cbn -[subscripts];
     [ | destruct Hsafe as [Hunset | [Hbroker Hport]]; [contradiction | ];
         match goal with
         | |- context [subscripts env ?na ?a ?nb ?b ?i ?W] =>
             destruct (subscripts_inside env na a nb b i W) as [both ->];
             [exact Hbroker | lia | ]
         end ];
     (eexists; split; [reflexivity | ]; cbn; split; [reflexivity | ];
      repeat rewrite <- app_assoc; apply Hprints; reflexivity)).
Qed.

Lemma printTelemetry_only_prints_witness :
  exists w',
    printTelemetry outOfRange boot = Returned tt w'
    /\ w' = boot <| trace := trace w' |>
    /\ published (trace w') = published (trace boot).
Proof.
  apply (printTelemetry_only_prints outOfRange boot). left. reflexivity.
Defined.

(** ** The WiFi scan *)

Lemma begun_app (a b : list event) :
  begun (a ++ b) = (begun a ++ begun b)%list.
Proof. unfold begun. apply flat_map_app. Qed.

Lemma u8_small (n : nat) : (n < 256)%nat -> u8 (Z.of_nat n) = Z.of_nat n.
Proof. intros H. unfold u8. apply Z.mod_small. lia. Qed.

(** What [checkForSSID] returns and leaves, for a scan with fewer than 256
    networks. *)
Lemma checkForSSID_result (env : Env) (ssidName : string) (w : World) :
  (length (WiFi_scanNetworks env (clock w)) < 256)%nat ->
  exists extra,
    checkForSSID env ssidName w
    = Returned
        (if existsb (String.eqb ssidName) (WiFi_scanNetworks env (clock w))
         then 1 else 0)
        (w <| clock := u32 (clock w + latency env (clock w)) |>
           <| trace := (trace w ++ extra)%list |>)
    /\ begun extra = []
    /\ published extra = [].
Proof.
  intros Hcount. unfold checkForSSID. sketch_unfold.
  rewrite (u8_small _ Hcount).
  destruct (WiFi_scanNetworks env (clock w)) as [ | name names] eqn:Hscan.
  - cbn. eexists. split.
    { destruct w; cbn. repeat rewrite <- app_assoc. reflexivity. }
    split; reflexivity.
  - replace (Z.of_nat (length (name :: names)) =? 0) with false
      by (symmetry; apply Z.eqb_neq; cbn [length]; lia).
    rewrite Nat2Z.id, firstn_all.
    destruct (existsb (String.eqb ssidName) (name :: names)).
    + eexists. split.
      { destruct w; cbn. repeat rewrite <- app_assoc. reflexivity. }
      split; reflexivity.
    + eexists. split.
      { destruct w; cbn. repeat rewrite <- app_assoc. reflexivity. }
      split; reflexivity.
Qed.

(** X9.  For a scan that sees fewer than 256 networks, [checkForSSID]
    returns 1 if the name is among the networks seen and 0 if it is not
    (so 0 for an empty scan); it takes the time of the scan, prints, and
    changes no global. *)
Theorem checkForSSID_finds (env : Env) (ssidName : string) (w : World) :
  (length (WiFi_scanNetworks env (clock w)) < 256)%nat ->
  exists r w',
    checkForSSID env ssidName w = Returned r w'
    /\ (r = 1 <-> In ssidName (WiFi_scanNetworks env (clock w)))
    /\ (r = 0 <-> ~ In ssidName (WiFi_scanNetworks env (clock w)))
    /\ w' = w <| clock := u32 (clock w + latency env (clock w)) |>
              <| trace := trace w' |>.
Proof.
  intros Hcount.
  destruct (checkForSSID_result env ssidName w Hcount) as (extra & E & _ & _).
  do 2 eexists. split; [exact E | ].
  assert (Hin : existsb (String.eqb ssidName) (WiFi_scanNetworks env (clock w)) = true
                <-> In ssidName (WiFi_scanNetworks env (clock w))).
  { rewrite existsb_exists. split.
    - intros (x & Hx & Heq). apply String.eqb_eq in Heq. subst x. exact Hx.
    - intros Hx. exists ssidName. split; [exact Hx | apply String.eqb_refl]. }
  destruct (existsb (String.eqb ssidName) (WiFi_scanNetworks env (clock w))).
  - split; [ | split].
    + split; [intros _; apply Hin; reflexivity | reflexivity].
    + split; [discriminate | ]. intros Hnot. exfalso. apply Hnot, Hin. reflexivity.
    + destruct w; reflexivity.
  - split; [ | split].
    + split; [discriminate | ]. intros Hx. apply Hin in Hx. discriminate.
    + split; [ | reflexivity]. intros _ Hx. apply Hin in Hx. discriminate.
    + destruct w; reflexivity.
Qed.

Lemma checkForSSID_finds_witness :
  exists r w',
    checkForSSID atHome "Syrinx" boot = Returned r w'
    /\ (r = 1 <-> In "Syrinx" (WiFi_scanNetworks atHome (clock boot)))
    /\ (r = 0 <-> ~ In "Syrinx" (WiFi_scanNetworks atHome (clock boot)))
    /\ w' = boot <| clock := u32 (clock boot + latency atHome (clock boot)) |>
                 <| trace := trace w' |>.
Proof.
  apply (checkForSSID_finds atHome "Syrinx" boot). cbn. lia.
Defined.

(** ** The WiFi connection, within the arrays *)

Lemma subscript_nth {A : Type} (name : string) (a : list A) (j : nat) (x : A) (w : World) :
  nth_error a j = Some x -> subscript name a (Z.of_nat j) w = Returned x w.
Proof.
  intros H. unfold subscript. rewrite Nat2Z.id, H. reflexivity.
Qed.

Lemma existsb_eqb_false (name : string) (names : list string) :
  ~ In name names -> existsb (String.eqb name) names = false.
Proof.
  intros Hnot. destruct (existsb (String.eqb name) names) eqn:E; [ | reflexivity].
  exfalso. apply Hnot. apply existsb_exists in E. destruct E as (x & Hx & Heq).
  apply String.eqb_eq in Heq. subst x. exact Hx.
Qed.

Lemma existsb_eqb_true (name : string) (names : list string) :
  In name names -> existsb (String.eqb name) names = true.
Proof.
  intros Hin. apply existsb_exists. exists name.
  split; [exact Hin | apply String.eqb_refl].
Qed.

Section FirstSuccess.

Variable env : Env.
Variable visible : list string.
Variables (i : nat) (ssid password : string).

Hypothesis Hscan : forall t, WiFi_scanNetworks env t = visible.
Hypothesis Hcount : (length visible < 256)%nat.
Hypothesis Hup : forall t, WiFi_status env t = WL_CONNECTED.
Hypothesis Hssid : nth_error (wifiSsidArray env) i = Some ssid.
Hypothesis Hpassword : nth_error (wifiPassArray env) i = Some password.
Hypothesis Hseen : In ssid visible.
Hypothesis Hearlier :
  forall j name, (j < i)%nat -> nth_error (wifiSsidArray env) j = Some name ->
                 ~ In name visible.

(** The loop of [wifiMultiConnect], from an entry at or before the first
    network in range. *)
Lemma wifiMultiConnect_for_first_success :
  forall (remaining j : nat) (w : World),
    (j <= i)%nat -> (i - j < remaining)%nat ->
    exists w',
      wifiMultiConnect_for env remaining (Z.of_nat j) w = Returned tt w'
      /\ networkIndex w' = Z.of_nat i
      /\ ledPin w' = 0
      /\ begun (trace w') = (begun (trace w) ++ [(ssid, password)])%list.
Proof.
  induction remaining as [ | remaining IH]; intros j w Hj Hrem; [lia | ].
  cbn [wifiMultiConnect_for].
  destruct (Nat.eq_dec j i) as [-> | Hlt].
  - unfold bind at 1. rewrite (subscript_nth _ _ _ _ _ Hssid).
    unfold bind at 1. rewrite (subscript_nth _ _ _ _ _ Hpassword).
    sketch_unfold.
    match goal with
    | |- context [checkForSSID env ssid ?W] =>
        destruct (checkForSSID_result env ssid W) as (extra & E & Hbegun & _);
        [rewrite Hscan; exact Hcount | ];
        rewrite Hscan, (existsb_eqb_true _ _ Hseen) in E; rewrite E; clear E
    end.
    destruct w; cbn -[u32 decimal snprintf]. rewrite !Hup.
    cbn -[u32 decimal snprintf]. rewrite !Hup. cbn -[u32 decimal snprintf].
    match goal with
    | |- context [WiFi_localIP env ?t] =>
        destruct (WiFi_localIP env t) as [[[ip0 ip1] ip2] ip3]
    end.
    cbn -[u32 decimal snprintf].
    eexists. split; [reflexivity | ].
    cbn -[u32 decimal snprintf]. unfold constant.
    split; [reflexivity | ]. split; [reflexivity | ].
    repeat rewrite begun_app. rewrite Hbegun. cbn.
    repeat rewrite <- app_assoc. cbn. reflexivity.
  - assert (Hj' : (j < i)%nat) by lia.
    destruct (nth_error (wifiSsidArray env) j) as [name | ] eqn:Hname.
    2:{ apply nth_error_None in Hname.
        assert (nth_error (wifiSsidArray env) i <> None) by congruence.
        apply nth_error_Some in H. lia. }
    destruct (nth_error (wifiPassArray env) j) as [pass | ] eqn:Hpass.
    2:{ apply nth_error_None in Hpass.
        assert (nth_error (wifiPassArray env) i <> None) by congruence.
        apply nth_error_Some in H. lia. }
    unfold bind at 1. rewrite (subscript_nth _ _ _ _ _ Hname).
    unfold bind at 1. rewrite (subscript_nth _ _ _ _ _ Hpass).
    sketch_unfold.
    match goal with
    | |- context [checkForSSID env name ?W] =>
        destruct (checkForSSID_result env name W) as (extra & E & Hbegun & _);
        [rewrite Hscan; exact Hcount | ];
        rewrite Hscan, (existsb_eqb_false _ _ (Hearlier j name Hj' Hname)) in E;
        rewrite E; clear E
    end.
    cbn [Z.eqb negb].
    replace (Z.of_nat j + 1) with (Z.of_nat (S j)) by lia.
    match goal with
    | |- context [wifiMultiConnect_for env remaining (Z.of_nat (S j)) ?W] =>
        destruct (IH (S j) W) as (w' & E & Hindex & Hled & Htrace); [lia | lia | ]
    end.
    exists w'. split; [exact E | ]. split; [exact Hindex | ]. split; [exact Hled | ].
    rewrite Htrace. f_equal.
    destruct w; cbn. repeat rewrite begun_app. rewrite Hbegun. cbn.
    rewrite ?app_nil_r. reflexivity.
Qed.

End FirstSuccess.

(** X10.  Let the scan see the same networks, fewer than 256, throughout,
    and let the radio associate as soon as it is asked to.  If entry [i] of
    the arrays is in range and no earlier entry is, [wifiMultiConnect]
    returns with [networkIndex] set to [i] and the LED lit, and it has called
    [WiFi.begin] exactly once, with the credentials of entry [i]: the
    entries out of range are skipped and the entries after [i] are not
    looked at. *)
Theorem wifiMultiConnect_first_success
        (env : Env) (visible : list string) (i : nat) (ssid password : string)
        (w : World) :
  (forall t, WiFi_scanNetworks env t = visible) ->
  (length visible < 256)%nat ->
  (forall t, WiFi_status env t = WL_CONNECTED) ->
  nth_error (wifiSsidArray env) i = Some ssid ->
  nth_error (wifiPassArray env) i = Some password ->
  In ssid visible ->
  (forall j name, (j < i)%nat -> nth_error (wifiSsidArray env) j = Some name ->
                  ~ In name visible) ->
  exists w',
    wifiMultiConnect env w = Returned tt w'
    /\ networkIndex w' = Z.of_nat i
    /\ ledPin w' = 0
    /\ begun (trace w') = (begun (trace w) ++ [(ssid, password)])%list.
Proof.
  intros Hscan Hcount Hup Hssid Hpassword Hseen Hearlier.
  unfold wifiMultiConnect. sketch_unfold.
  change (LED_PIN =? LED_PIN) with true. cbv beta iota.
  match goal with
  | |- context [wifiMultiConnect_for env ?n 0 ?W] =>
      destruct (wifiMultiConnect_for_first_success
                  env visible i ssid password
                  Hscan Hcount Hup Hssid Hpassword Hseen Hearlier n 0%nat W)
        as (w' & E & Hindex & Hled & Htrace)
  end.
  - lia.
  - assert (Hin : (i < length (wifiSsidArray env))%nat).
    { apply nth_error_Some. congruence. }
    unfold sizeof_pointer_array, SIZEOF_POINTER. lia.
  - exists w'. change (Z.of_nat 0) with 0 in E.
    split; [exact E | ]. split; [exact Hindex | ]. split; [exact Hled | ].
    rewrite Htrace. f_equal. destruct w; cbn.
    rewrite begun_app. cbn. apply app_nil_r.
Qed.

Lemma wifiMultiConnect_first_success_witness :
  exists w',
    wifiMultiConnect atHome boot = Returned tt w'
    /\ networkIndex w' = Z.of_nat 3
    /\ ledPin w' = 0
    /\ begun (trace w') = (begun (trace boot) ++ [("Syrinx", "By-Tor")])%list.
Proof.
  apply (wifiMultiConnect_first_success
           atHome ["Elsewhere"; "Syrinx"] 3 "Syrinx" "By-Tor" boot).
  - intros t. reflexivity.
  - cbn. lia.
  - intros t. reflexivity.
  - reflexivity.
  - reflexivity.
  - cbn. right. left. reflexivity.
  - intros j name Hj Hname [Hin | [Hin | []]];
      destruct j as [ | [ | [ | j]]]; try lia;
      cbn in Hname; injection Hname as <-; discriminate Hin.
Defined.

(** ** The wait for the association *)

Lemma awaitConnection_polls (env : Env) (start : Z) :
  forall (turns : nat) (k : Z) (w : World),
    clock w = u32 (start + MILLIS_IN_SEC * k) ->
    0 <= k <= 10 ->
    10 - k < Z.of_nat turns ->
    exists w' k',
      awaitConnection env turns start w = Returned tt w'
      /\ k <= k' <= 10
      /\ clock w' = u32 (start + MILLIS_IN_SEC * k')
      /\ (WiFi_status env (clock w') = WL_CONNECTED \/ k' = 10)
      /\ (forall j, k <= j < k' ->
                    WiFi_status env (u32 (start + MILLIS_IN_SEC * j)) <> WL_CONNECTED)
      /\ w' = w <| clock := clock w' |> <| trace := trace w' |>.
Proof.
  induction turns as [ | turns IH]; intros k w Hclock Hk Hturns; [lia | ].
  cbn [awaitConnection]. sketch_unfold.
  destruct (Z.eqb_spec (WiFi_status env (clock w)) WL_CONNECTED) as [Hup | Hdown].
  - exists w, k. split; [reflexivity | ]. split; [lia | ]. split; [exact Hclock | ].
    split; [left; exact Hup | ]. split; [intros j Hj; lia | ].
    destruct w; reflexivity.
  - cbn [negb andb].
    destruct (Z.ltb_spec (u32 (clock w - start)) wifiConnectionTimeout) as [Hearly | Hlate].
    + assert (Hk' : k < 10).
      { rewrite Hclock, u32_elapsed in Hearly;
          unfold wifiConnectionTimeout, MILLIS_IN_SEC in *; lia. }
      match goal with
      | |- context [awaitConnection env turns start ?W] =>
          destruct (IH (k + 1) W) as (w' & k' & E & Hk'' & Hclock' & Hexit & Hpolls & Hframe)
      end.
      * match goal with
        | |- clock ?W = _ =>
            replace (clock W) with (u32 (clock w + MILLIS_IN_SEC))
              by (destruct w; reflexivity)
        end.
        rewrite Hclock, u32_add_l. f_equal. lia.
      * lia.
      * lia.
      * exists w', k'. split; [exact E | ]. split; [lia | ].
        split; [exact Hclock' | ]. split; [exact Hexit | ]. split.
        -- intros j Hj. destruct (Z.eq_dec j k) as [-> | Hne].
           ++ rewrite <- Hclock. exact Hdown.
           ++ apply Hpolls. lia.
        -- rewrite Hframe. destruct w; reflexivity.
    + exists w, k. split; [reflexivity | ]. split; [lia | ]. split; [exact Hclock | ].
      split.
      * right. rewrite Hclock, u32_elapsed in Hlate;
          unfold wifiConnectionTimeout, MILLIS_IN_SEC in *; lia.
      * split; [intros j Hj; lia | destruct w; reflexivity].
Qed.

(** X11.  The wait for the association always ends.  It polls
    [WiFi.status()] once a second, leaves at the first poll that finds the
    WiFi associated, and gives up at the poll ten seconds after the start;
    it changes nothing but the clock and the serial output. *)
Theorem awaitConnection_bounded (env : Env) (w : World) :
  0 <= clock w < 2 ^ 32 ->
  exists w' k,
    awaitConnection env awaitTurns (clock w) w = Returned tt w'
    /\ 0 <= k <= 10
    /\ clock w' = u32 (clock w + MILLIS_IN_SEC * k)
    /\ (WiFi_status env (clock w') = WL_CONNECTED \/ k = 10)
    /\ (forall j, 0 <= j < k ->
                  WiFi_status env (u32 (clock w + MILLIS_IN_SEC * j)) <> WL_CONNECTED)
    /\ w' = w <| clock := clock w' |> <| trace := trace w' |>.
Proof.
  intros Hclock.
  apply (awaitConnection_polls env (clock w) awaitTurns 0 w).
  - rewrite Z.mul_0_r, Z.add_0_r. symmetry. apply u32_small. exact Hclock.
  - lia.
  - vm_compute. reflexivity.
Qed.

Lemma awaitConnection_bounded_witness :
  exists w' k,
    awaitConnection outOfRange awaitTurns (clock boot) boot = Returned tt w'
    /\ 0 <= k <= 10
    /\ clock w' = u32 (clock boot + MILLIS_IN_SEC * k)
    /\ (WiFi_status outOfRange (clock w') = WL_CONNECTED \/ k = 10)
    /\ (forall j, 0 <= j < k ->
                  WiFi_status outOfRange (u32 (clock boot + MILLIS_IN_SEC * j))
                  <> WL_CONNECTED)
    /\ w' = boot <| clock := clock w' |> <| trace := trace w' |>.
Proof.
  apply (awaitConnection_bounded outOfRange boot). cbn. lia.
Defined.

(** ** The MQTT connection *)

Lemma attempts_app (a b : list event) :
  attempts (a ++ b) = (attempts a + attempts b)%nat.
Proof. unfold attempts. rewrite filter_app, length_app. reflexivity. Qed.

(** What one attempt can end in. *)
Lemma mqttAttempt_outcome (env : Env) (attemptNumber maxAttempts : Z) (w : World) :
  exists w',
    (mqttAttempt env attemptNumber maxAttempts w = Returned tt w'
     \/ mqttAttempt env attemptNumber maxAttempts w = Restarted w')
    /\ attempts (trace w') = S (attempts (trace w)).
Proof.
  unfold mqttAttempt. sketch_unfold. destruct w; cbn -[attempts].
  destruct (mqtt_connect env _ clock0); (cbn -[attempts]; unfold constant; cbn -[attempts]).
  - destruct (mqtt_setBufferSize env BUFFER_SIZE _); (cbn -[attempts]; unfold constant; cbn -[attempts]).
    + destruct (mqtt_subscribe env mqttCommandTopic _);
        (eexists; split; [left; reflexivity | ]; cbn -[attempts];
         repeat rewrite attempts_app; cbn; lia).
    + eexists. split; [right; reflexivity | ]. cbn -[attempts].
      repeat rewrite attempts_app. cbn. lia.
  - destruct (mqtt_state env _ =? -4); [ | destruct (mqtt_state env _ =? 2)];
      destruct (maxAttempts >? 1);
      (eexists; split; [left; reflexivity | ]; cbn -[attempts];
       repeat rewrite attempts_app; cbn; lia).
Qed.

Lemma mqttAttempts_bound (env : Env) (maxAttempts : Z) :
  forall (remaining : nat) (attemptNumber : Z) (w : World),
    fault_of (mqttAttempts env remaining attemptNumber maxAttempts w) = None
    /\ (attempts (trace w)
        <= attempts (trace (world_of (mqttAttempts env remaining attemptNumber
                                                   maxAttempts w)))
        <= attempts (trace w) + remaining)%nat.
Proof.
  induction remaining as [ | remaining IH]; intros attemptNumber w.
  - cbn -[attempts]. split; [reflexivity | lia].
  - cbn [mqttAttempts]. sketch_unfold.
    destruct (mqtt_connected env (clock w)); cbn [negb].
    + cbn -[attempts]. split; [reflexivity | lia].
    + destruct (mqttAttempt_outcome env attemptNumber maxAttempts w)
        as (w1 & [E | E] & Hcount); rewrite E.
      * destruct (IH (attemptNumber + 1) w1) as [Hsafe Hbound].
        split; [exact Hsafe | ]. lia.
      * cbn -[attempts]. split; [reflexivity | lia].
Qed.

(** X12.  Called with the WiFi associated, [mqttMultiConnect] makes at
    most [maxAttempts] attempts to connect (none for a [maxAttempts] that
    is not positive), and it never indexes the broker arrays outside their
    bounds as long as [networkIndex] is the sentinel 2112 or lies within
    them. *)
Theorem mqttMultiConnect_attempts (env : Env) (maxAttempts : Z) (w : World) :
  WiFi_status env (clock w) = WL_CONNECTED ->
  networkIndex w = 2112
  \/ (0 <= networkIndex w < Z.of_nat (length (mqttBrokerArray env))
      /\ networkIndex w < Z.of_nat (length (mqttPortArray env))) ->
  fault_of (mqttMultiConnect env maxAttempts w) = None
  /\ (attempts (trace (world_of (mqttMultiConnect env maxAttempts w)))
      <= attempts (trace w) + Z.to_nat maxAttempts)%nat.
Proof.
  intros Hup Hsafe. unfold mqttMultiConnect. sketch_unfold.
  destruct (due (lastMqttConnectionTime w) (clock w) mqttReconnectCooldown);
    [ | cbn -[attempts]; split; [reflexivity | lia]].
  destruct w; cbn -[attempts] in *. rewrite Hup. cbn -[attempts].
  assert (Hfinish :
            forall W : World,
              (attempts (trace W) <= attempts trace0 + 0)%nat ->
              fault_of
                match mqttAttempts env (Z.to_nat maxAttempts) 0 maxAttempts W with
                | Returned _ w' =>
                    (if negb (mqtt_connected env (clock w'))
                     then
                       Serial_Println "\n";;
                       Serial_Println "*************************************";;
                       Serial_Println "Unable to connect to the MQTT broker!";;
                       Serial_Println "*************************************";;
                       Serial_Println "\n";;
                       delay MILLIS_IN_SEC
                     else skip) w'
                | Restarted w' => Restarted w'
                | Undefined f w' => Undefined f w'
                end = None
              /\ (attempts
                    (trace
                       (world_of
                          match mqttAttempts env (Z.to_nat maxAttempts) 0 maxAttempts W with
                          | Returned _ w' =>
                              (if negb (mqtt_connected env (clock w'))
                               then
                                 Serial_Println "\n";;
                                 Serial_Println "*************************************";;
                                 Serial_Println "Unable to connect to the MQTT broker!";;
                                 Serial_Println "*************************************";;
                                 Serial_Println "\n";;
                                 delay MILLIS_IN_SEC
                               else skip) w'
                          | Restarted w' => Restarted w'
                          | Undefined f w' => Undefined f w'
                          end))
                  <= attempts trace0 + Z.to_nat maxAttempts)%nat).
  { intros W HW.
    destruct (mqttAttempts_bound env maxAttempts (Z.to_nat maxAttempts) 0 W)
      as [Hnofault Hbound].
    destruct (mqttAttempts env (Z.to_nat maxAttempts) 0 maxAttempts W)
      as [[] w1 | w1 | f w1]; cbn -[attempts] in Hnofault, Hbound.
    - sketch_unfold. destruct (mqtt_connected env (clock w1)); cbn [negb].
      + cbn -[attempts]. split; [reflexivity | lia].
      + destruct w1; cbn -[attempts] in *. split; [reflexivity | ].
        repeat rewrite attempts_app. cbn. lia.
    - cbn -[attempts]. split; [reflexivity | lia].
    - discriminate Hnofault. }
  destruct (Z.eqb_spec networkIndex0 2112) as [Hunset | Hset]; cbn -[attempts].
  - apply Hfinish. cbn -[attempts]. repeat rewrite attempts_app. cbn. lia.
  - destruct Hsafe as [Hunset | [Hbroker Hport]]; [contradiction | ].
    match goal with
    | |- context [subscript "mqttBrokerArray" ?a ?i ?W] =>
        destruct (subscript_inside "mqttBrokerArray" a i W) as [broker ->];
        [exact Hbroker | ]
    end.
    cbn -[attempts].
    match goal with
    | |- context [subscript "mqttPortArray" ?a ?i ?W] =>
        destruct (subscript_inside "mqttPortArray" a i W) as [port ->];
        [lia | ]
    end.
    cbn -[attempts]. apply Hfinish. cbn -[attempts]. repeat rewrite attempts_app. cbn. lia.
Qed.

Lemma mqttMultiConnect_attempts_witness :
  fault_of (mqttMultiConnect refusing 1 beforeRollover) = None
  /\ (attempts (trace (world_of (mqttMultiConnect refusing 1 beforeRollover)))
      <= attempts (trace beforeRollover) + Z.to_nat 1)%nat.
Proof.
  apply (mqttMultiConnect_attempts refusing 1 beforeRollover).
  - reflexivity.
  - right. vm_compute. split; [split; [discriminate | reflexivity] | reflexivity].
Defined.

(** X13.  One attempt to connect never runs into undefined behaviour.
    It restarts the device exactly when the broker accepted the connection
    and the client could not size its buffer; a refusal never restarts.  The
    LED is lit when the broker accepted and left alone when it refused, and
    after a refusal the attempt sleeps [mqttReconnectDelay] only when more
    than one attempt was asked for. *)
Theorem mqttAttempt_restart_and_sleep
        (env : Env) (attemptNumber maxAttempts : Z) (w : World) :
  let clientId :=
    snprintf 22 (macAddress w ++ "-" ++ decimal3 (random env 999 (clock w))) in
  let back := u32 (clock w + latency env (clock w)) in
  let o := mqttAttempt env attemptNumber maxAttempts w in
  fault_of o = None
  /\ restarts o
     = mqtt_connect env clientId (clock w)
       && negb (mqtt_setBufferSize env BUFFER_SIZE back)
  /\ ledPin (world_of o)
     = (if mqtt_connect env clientId (clock w) then 0 else ledPin w)
  /\ clock (world_of o)
     = (if mqtt_connect env clientId (clock w) then back
        else if maxAttempts >? 1 then u32 (back + mqttReconnectDelay)
             else back).
Proof.
  unfold mqttAttempt. sketch_unfold. destruct w; cbn.
  destruct (mqtt_connect env _ clock0); sketch_simpl.
  - destruct (mqtt_setBufferSize env BUFFER_SIZE _); sketch_simpl.
    + destruct (mqtt_subscribe env mqttCommandTopic _); repeat split; reflexivity.
    + repeat split; reflexivity.
  - destruct (mqtt_state env _ =? -4); [ | destruct (mqtt_state env _ =? 2)];
      destruct (maxAttempts >? 1); repeat split; reflexivity.
Qed.

(** ** The command dispatcher *)

Lemma unknown_command_only_logs_witness :
  onReceiveCallback outOfRange mqttCommandTopic "" 
    {| doc_command := Some "reboot"; doc_value := 0 |} boot
  = Returned tt
      (boot <| trace := (trace boot
                         ++ Serial_printf "Message arrived [%s] " [Str mqttCommandTopic]
                         :: echoed ""
                         ++ [Serial_println (Str "");
                             Serial_printf "Unknown command: %s\n" [Str "reboot"]])%list |>).
Proof.
  apply (unknown_command_only_logs outOfRange mqttCommandTopic "" "reboot" 0 boot);
    discriminate.
Defined.

(** ** The loop *)

Lemma world_of_bind {A B : Type} (m : M A) (k : A -> M B) (w : World) :
  world_of (bind m k w)
  = match m w with
    | Returned a w1 => world_of (k a w1)
    | Restarted w1 => w1
    | Undefined _ w1 => w1
    end.
Proof. unfold bind. destruct (m w); reflexivity. Qed.

Lemma returns_bind {A B : Type} (m : M A) (k : A -> M B) (w : World) :
  returns (bind m k w) = true ->
  exists a w1, m w = Returned a w1 /\ bind m k w = k a w1.
Proof.
  unfold bind. destruct (m w) as [a w1 | w1 | f w1]; intros H; try discriminate.
  exists a, w1. split; reflexivity.
Qed.

Lemma keeps_schedule_refl (w : World) : keeps_schedule w w.
Proof. repeat split. Qed.

Lemma keeps_schedule_trans (w1 w2 w3 : World) :
  keeps_schedule w1 w2 -> keeps_schedule w2 w3 -> keeps_schedule w1 w3.
Proof.
  unfold keeps_schedule. intros (A1 & A2 & A3 & A4) (B1 & B2 & B3 & B4).
  repeat split; congruence.
Qed.

Lemma published_prints (events extra : list event) :
  published extra = [] -> published (events ++ extra) = published events.
Proof. intros H. rewrite published_app, H. apply app_nil_r. Qed.

(** Reading, printing and the LED leave the publish schedule alone,
    however they end. *)
Lemma readTelemetry_keeps_schedule (env : Env) (w : World) :
  keeps_schedule w (world_of (readTelemetry env w)).
Proof.
  unfold readTelemetry. sketch_unfold. destruct w; cbn -[published].
  destruct (htu21d_read env clock0) as [[t h] | ]; [ | repeat split].
  destruct (F32.gt t (F32.of_int (-30)) || F32.lt t (F32.of_int 90));
    destruct (F32.ge h (F32.of_int 0) || F32.le h (F32.of_int 100));
    cbn -[published]; unfold constant; cbn -[published];
    repeat match goal with
           | |- context [if ?b then _ else _] => destruct b
           end;
    cbn -[published];
    (repeat split; repeat rewrite <- app_assoc;
     try reflexivity; apply published_prints; reflexivity).
Qed.

Lemma printTelemetry_keeps_schedule (env : Env) (w : World) :
  keeps_schedule w (world_of (printTelemetry env w)).
Proof.
  unfold printTelemetry, subscripts, subscript. sketch_unfold.
  destruct w; cbn -[published].
  destruct (WiFi_status env clock0 =? 3); cbn -[published];
    (destruct (networkIndex0 =? 2112); cbn -[published];
     [ | destruct (rightToLeft env);
         destruct (nth_error (mqttBrokerArray env) (Z.to_nat networkIndex0));
         destruct (nth_error (mqttPortArray env) (Z.to_nat networkIndex0));
         cbn -[published] ];
     (repeat split; repeat rewrite <- app_assoc;
      try reflexivity; apply published_prints; reflexivity)).
Qed.

Lemma indicatorTimer_keeps_schedule (env : Env) (w : World) :
  returns (indicatorTimer env w) = true
  /\ keeps_schedule w (world_of (indicatorTimer env w)).
Proof.
  unfold indicatorTimer, updateIndicator, toggleLED. sketch_unfold.
  change (LED_PIN =? LED_PIN) with true. cbv beta iota.
  destruct w; cbn -[published].
  repeat match goal with
         | |- context [if ?b then _ else _] => destruct b; cbn -[published]
         end;
    repeat split.
Qed.

Lemma pollTimer_keeps_schedule (env : Env) (w : World) :
  keeps_schedule w (world_of (pollTimer env w)).
Proof.
  unfold pollTimer, pollTelemetry.
  rewrite world_of_bind. unfold millis at 1, load at 1.
  rewrite world_of_bind. unfold load at 1.
  destruct (due (lastPollTime w) (clock w) telemetryInterval);
    [ | apply keeps_schedule_refl].
  rewrite world_of_bind.
  pose proof (readTelemetry_keeps_schedule env w) as Hread.
  destruct (readTelemetry env w) as [[] w1 | w1 | f w1]; cbn [world_of] in Hread;
    try exact Hread.
  apply (keeps_schedule_trans w w1); [exact Hread | ].
  apply printTelemetry_keeps_schedule.
Qed.

(** What [publishTelemetry] can end in.  It returns, or the text of a
    value overruns the buffer after the broker took the aggregate; it never
    restarts the device.  Either way the aggregate was handed to the broker
    and no global but [lastPublishTime] changed. *)
Lemma publishTelemetry_outcome (env : Env) (w : World) :
  match publishTelemetry env w with
  | Returned _ w' =>
      w' = w <| lastPublishTime := clock w |> <| trace := trace w' |>
  | Restarted _ => False
  | Undefined f w' =>
      f = IndexOutOfBounds "buffer" 20
      /\ mqtt_publish env mqttTopic (clock w) = true
      /\ printable (tempC w) && printable (tempF w) && printable (humidity w) = false
      /\ w' = w <| trace := trace w' |>
  end
  /\ exists rest,
      published (trace (world_of (publishTelemetry env w)))
      = (published (trace w) ++ mqttTopic :: rest)%list.
Proof.
  unfold publishTelemetry, mqttClient_publish. sketch_unfold.
  destruct (mqtt_publish env mqttTopic (clock w)) eqn:Hsent.
  - destruct w; cbn -[publishField dtostrf published] in *.
    publish_fields env.
    destruct (printable tempC0) eqn:Hc;
      [ | rewrite (dtostrf_overruns _ _ Hc); cbn -[published];
          split; [repeat split | ];
          repeat rewrite <- app_assoc; rewrite published_app; cbn;
          eexists; reflexivity ].
    publish_fields env.
    destruct (printable tempF0) eqn:Hf;
      [ | rewrite (dtostrf_overruns _ _ Hf); cbn -[published];
          split; [repeat split | ];
          repeat rewrite <- app_assoc; rewrite published_app; cbn;
          eexists; reflexivity ].
    publish_fields env.
    destruct (printable humidity0) eqn:Hh;
      [ | rewrite (dtostrf_overruns _ _ Hh); cbn -[published];
          split; [repeat split | ];
          repeat rewrite <- app_assoc; rewrite published_app; cbn;
          eexists; reflexivity ].
    publish_fields env.
    cbn -[published]. split; [reflexivity | ].
    repeat rewrite <- app_assoc. rewrite published_app. cbn.
    eexists. reflexivity.
  - destruct w; cbn -[published] in *. split; [reflexivity | ].
    repeat rewrite <- app_assoc. rewrite published_app. cbn.
    eexists. reflexivity.
Qed.

(** [publishTelemetry] keeps the count and the interval and hands the
    aggregate to the broker, however it ends; when it returns, the publish
    time is the clock. *)
Lemma publishTelemetry_counting (env : Env) (w : World) :
  publishCount (world_of (publishTelemetry env w)) = publishCount w
  /\ publishInterval (world_of (publishTelemetry env w)) = publishInterval w
  /\ clock (world_of (publishTelemetry env w)) = clock w
  /\ (returns (publishTelemetry env w) = true ->
      lastPublishTime (world_of (publishTelemetry env w)) = clock w)
  /\ exists rest,
      published (trace (world_of (publishTelemetry env w)))
      = (published (trace w) ++ mqttTopic :: rest)%list.
Proof.
  destruct (publishTelemetry_outcome env w) as [Hend Hsent].
  destruct (publishTelemetry env w) as [[] w' | w' | f w']; cbn [world_of returns] in *.
  - rewrite Hend. destruct w; cbn. repeat split. exact Hsent.
  - contradiction.
  - destruct Hend as (_ & _ & _ & ->). destruct w; cbn.
    repeat split; [discriminate | exact Hsent].
Qed.

(** X14.  [publishCount] counts the firings of the publish timer, not
    the messages that went out: a check of the timer that is due adds one
    to it (modulo 2^32) whatever the sensor and the broker do afterwards,
    also when the iteration ends in a restart, and a check that is not due
    leaves it alone. *)
Theorem publishTimer_counts_firings (env : Env) (w : World) :
  publishCount (world_of (publishTimer env w))
  = (if due (lastPublishTime w) (clock w) (publishInterval w)
     then u32 (publishCount w + 1) else publishCount w).
Proof.
  unfold publishTimer.
  rewrite world_of_bind. unfold millis at 1, load at 1.
  rewrite world_of_bind. unfold load at 1.
  rewrite world_of_bind. unfold load at 1.
  destruct (due (lastPublishTime w) (clock w) (publishInterval w)); [ | reflexivity].
  unfold publishDue.
  rewrite world_of_bind. unfold store at 1.
  set (w0 := w <| publishCount := u32 (publishCount w + 1) |>).
  assert (Hcount : publishCount w0 = u32 (publishCount w + 1))
    by (destruct w; reflexivity).
  rewrite world_of_bind.
  destruct (readTelemetry_keeps_schedule env w0) as (_ & _ & Hread & _).
  destruct (readTelemetry env w0) as [[] w1 | w1 | f w1]; cbn [world_of] in Hread;
    try congruence.
  rewrite world_of_bind.
  destruct (printTelemetry_keeps_schedule env w1) as (_ & _ & Hprint & _).
  destruct (printTelemetry env w1) as [[] w2 | w2 | f w2]; cbn [world_of] in Hprint;
    try congruence.
  destruct (publishTelemetry_counting env w2) as (Hpublish & _).
  congruence.
Qed.

(** X15.  A [changeTelemetryInterval] command is acted on in the
    iteration that receives it.  When the session is up and
    [mqttClient.loop()] delivers the command, the callback runs before the
    timers are looked at, so the publish timer of the same [loop()] finds
    [lastPublishTime] at 0 and fires: if the iteration returns,
    [publishCount] has gone up by one, the aggregate message has been handed
    to the broker, and [publishInterval] holds the new value if that
    exceeds four seconds and its old value otherwise. *)
Theorem command_publishes_in_same_iteration
        (env : Env) (w : World) (topic payload : string) (value : Z) :
  mqtt_connected env (clock w) = true ->
  mqtt_inbound env (clock w)
  = Some (topic, payload,
          {| doc_command := Some "changeTelemetryInterval"; doc_value := value |}) ->
  returns (loop env w) = true ->
  publishCount (world_of (loop env w)) = u32 (publishCount w + 1)
  /\ publishInterval (world_of (loop env w))
     = (if value >? 4 * MILLIS_IN_SEC then value else publishInterval w)
  /\ In mqttTopic (published (trace (world_of (loop env w)))).
Proof.
  intros Hup Hinbound.
  assert (Hloop :
            exists w1,
              publishCount w1 = publishCount w
              /\ publishInterval w1
                 = (if value >? 4 * MILLIS_IN_SEC then value else publishInterval w)
              /\ lastPublishTime w1 = 0
              /\ loop env w
                 = (pollTimer env;; publishTimer env;; indicatorTimer env) w1).
  { destruct (changeTelemetryInterval_outcome env topic payload value w) as [log E].
    eexists. split; [ | split; [ | split]].
    4:{ unfold loop, mqttClient_loop. unfold bind at 1. unfold mqttClient_connected at 1, load at 1.
        rewrite Hup. cbn [negb]. unfold bind at 1. unfold skip at 1, ret at 1.
        unfold bind at 1. unfold bind at 1.
        unfold mqttClient_connected at 1, load at 1. rewrite Hup.
        unfold bind at 1. unfold load at 1. rewrite Hinbound. rewrite E.
        unfold bind at 1. unfold emit at 1, store at 1. reflexivity. }
    all: destruct w; reflexivity. }
  destruct Hloop as (w1 & Hcount1 & Hinterval1 & Hlast1 & Eloop).
  rewrite Eloop. clear Eloop. intros Hret.
  remember ((pollTimer env;; publishTimer env;; indicatorTimer env) w1) as o eqn:Ho.
  unfold bind at 1 in Ho.
  destruct (pollTimer_keeps_schedule env w1) as (Hlast2 & Hinterval2 & Hcount2 & _).
  destruct (pollTimer env w1) as [[] w2 | w2 | f w2]; cbn [world_of] in *;
    [ | subst o; discriminate Hret | subst o; discriminate Hret].
  unfold bind at 1 in Ho.
  rewrite (publishTimer_never_fired env w2) in Ho by congruence.
  unfold publishDue in Ho.
  unfold bind at 1 in Ho. unfold store at 1 in Ho.
  set (w3 := w2 <| publishCount := u32 (publishCount w2 + 1) |>) in Ho.
  assert (Hw3 : publishCount w3 = u32 (publishCount w + 1)
                /\ publishInterval w3 = publishInterval w2)
    by (split; [rewrite <- Hcount1, <- Hcount2 | ]; destruct w2; reflexivity).
  destruct Hw3 as [Hcount3 Hinterval3].
  unfold bind at 1 in Ho.
  destruct (readTelemetry_keeps_schedule env w3) as (_ & Hinterval4 & Hcount4 & _).
  destruct (readTelemetry env w3) as [[] w4 | w4 | f w4]; cbn [world_of] in *;
    [ | subst o; discriminate Hret | subst o; discriminate Hret].
  unfold bind at 1 in Ho.
  destruct (printTelemetry_keeps_schedule env w4) as (_ & Hinterval5 & Hcount5 & _).
  destruct (printTelemetry env w4) as [[] w5 | w5 | f w5]; cbn [world_of] in *;
    [ | subst o; discriminate Hret | subst o; discriminate Hret].
  destruct (publishTelemetry_counting env w5)
    as (Hcount6 & Hinterval6 & _ & _ & rest & Hsent).
  destruct (publishTelemetry env w5) as [[] w6 | w6 | f w6]; cbn [world_of] in *;
    [ | subst o; discriminate Hret | subst o; discriminate Hret].
  destruct (indicatorTimer_keeps_schedule env w6)
    as (_ & _ & Hinterval7 & Hcount7 & Hpublished7).
  subst o. rewrite Hcount7, Hinterval7, Hpublished7.
  split; [congruence | ]. split; [congruence | ].
  rewrite Hsent. apply in_or_app. right. left. reflexivity.
Qed.

Lemma command_publishes_in_same_iteration_witness :
  publishCount (world_of (loop commanded online)) = u32 (publishCount online + 1)
  /\ publishInterval (world_of (loop commanded online))
     = (if 30000 >? 4 * MILLIS_IN_SEC then 30000 else publishInterval online)
  /\ In mqttTopic (published (trace (world_of (loop commanded online)))).
Proof.
  apply (command_publishes_in_same_iteration
           commanded online mqttCommandTopic "{...}" 30000).
  - reflexivity.
  - reflexivity.
  - vm_compute. reflexivity.
Defined.

(** ** The header-less revision: the MQTT connection *)

Lemma bind_post {A B : Type} (P : outcome B -> Prop) (m : M A) (k : A -> M B) (w : World) :
  (forall w', P (Restarted w')) ->
  (forall f w', P (Undefined f w')) ->
  (forall a w1, m w = Returned a w1 -> P (k a w1)) ->
  P (bind m k w).
Proof.
  intros Hrestart Hfault Hnext. unfold bind.
  destruct (m w) as [a w1 | w1 | f w1]; auto.
Qed.

(** In the header-less revision [mqttMultiConnect] returns whether
    the session is up: whenever it returns, its result is what
    [mqttClient.connected()] answers at that moment. *)
Lemma Prior_mqttMultiConnect_result (env : Env) (maxAttempts : Z) (w : World) :
  match Prior.mqttMultiConnect env maxAttempts w with
  | Returned up w' => up = mqtt_connected env (clock w')
  | Restarted _ => True
  | Undefined _ _ => True
  end.
Proof.
  unfold Prior.mqttMultiConnect.
  repeat (apply bind_post; [intros; exact I | intros; exact I | intros ? ? ?]).
  match goal with
  | H : mqttClient_connected env ?W = Returned ?a ?W' |- _ =>
      unfold mqttClient_connected, load in H; injection H as <- <-
  end.
  match goal with
  | |- context [mqtt_connected env (clock ?W)] =>
      destruct (mqtt_connected env (clock W)) eqn:Hup; cbn [negb];
      unfold Serial_Println, emit, store, bind, ret; destruct W; cbn in *;
      rewrite Hup; reflexivity
  end.
Qed.

(** The attempts that [publishStats], one attempt and the loop of attempts
    announce. *)
Lemma Prior_publishStats_attempts (env : Env) (w : World) :
  attempts (trace (world_of (Prior.publishStats env w))) = attempts (trace w).
Proof.
  unfold Prior.publishStats, mqttClient_publish, subscripts, subscript. sketch_unfold.
  destruct w; cbn -[attempts].
  destruct (mqtt_connected env clock0) eqn:Hup; cbn -[attempts];
    [ | rewrite attempts_app; cbn; lia].
  rewrite Hup. cbn -[attempts].
  destruct (mqtt_publish env mqttStatsTopic clock0); cbn -[attempts];
    [ | repeat rewrite attempts_app; cbn; lia].
  destruct (rightToLeft env);
    destruct (nth_error (mqttBrokerArray env) (Z.to_nat networkIndex0));
    destruct (nth_error (mqttPortArray env) (Z.to_nat networkIndex0));
    cbn -[attempts]; repeat rewrite attempts_app; cbn; lia.
Qed.

Lemma Prior_mqttAttempt_counts (env : Env) (attemptNumber : Z) (w : World) :
  attempts (trace (world_of (Prior.mqttAttempt env attemptNumber w)))
  = S (attempts (trace w)).
Proof.
  unfold Prior.mqttAttempt. sketch_unfold.
  change (Prior.MCU_LED =? LED_PIN) with true. cbv beta iota.
  destruct w; cbn -[attempts Prior.publishStats].
  destruct (mqtt_connect env _ clock0); cbn -[attempts Prior.publishStats].
  - destruct (mqtt_setBufferSize env BUFFER_SIZE _); cbn -[attempts Prior.publishStats].
    + match goal with
      | |- context [Prior.publishStats env ?W] =>
          pose proof (Prior_publishStats_attempts env W) as Hstats;
          destruct (Prior.publishStats env W) as [[] w1 | w1 | f w1];
          cbn -[attempts] in Hstats
      end.
      * destruct (mqtt_subscribe env Prior.mqttCommandTopic (clock w1));
          destruct w1; cbn -[attempts] in *;
          repeat rewrite attempts_app; rewrite Hstats;
          repeat rewrite attempts_app; cbn; lia.
      * cbn -[attempts]. rewrite Hstats. repeat rewrite attempts_app. cbn. lia.
      * cbn -[attempts]. rewrite Hstats. repeat rewrite attempts_app. cbn. lia.
    + unfold constant. cbn -[attempts]. repeat rewrite attempts_app. cbn. lia.
  - destruct (mqtt_state env _ =? -4); [ | destruct (mqtt_state env _ =? 2)];
      cbn -[attempts]; unfold constant; cbn -[attempts];
      repeat rewrite attempts_app; cbn; lia.
Qed.

Lemma Prior_mqttAttempts_step (env : Env) (remaining : nat) (attemptNumber : Z) (w : World) :
  world_of (Prior.mqttAttempts env (S remaining) attemptNumber w)
  = (if mqtt_connected env (clock w) then w
     else match Prior.mqttAttempt env attemptNumber w with
          | Returned _ w1 =>
              world_of (Prior.mqttAttempts env remaining (attemptNumber + 1) w1)
          | Restarted w1 => w1
          | Undefined _ w1 => w1
          end).
Proof.
  cbn [Prior.mqttAttempts]. rewrite world_of_bind.
  unfold mqttClient_connected, load.
  destruct (mqtt_connected env (clock w)); cbn [negb]; [reflexivity | ].
  rewrite world_of_bind. reflexivity.
Qed.

Lemma Prior_mqttAttempts_counts (env : Env) :
  forall (remaining : nat) (attemptNumber : Z) (w : World),
    (attempts (trace w)
     <= attempts (trace (world_of (Prior.mqttAttempts env remaining attemptNumber w))))%nat
    /\ (mqtt_connected env (clock w) = false -> remaining <> O ->
        (S (attempts (trace w))
         <= attempts (trace (world_of (Prior.mqttAttempts env remaining attemptNumber w))))%nat).
Proof.
  induction remaining as [ | remaining IH]; intros attemptNumber w.
  - cbn. split; [lia | intros _ H; contradiction].
  - rewrite Prior_mqttAttempts_step.
    destruct (mqtt_connected env (clock w)).
    + split; [lia | discriminate].
    + pose proof (Prior_mqttAttempt_counts env attemptNumber w) as Hone.
      destruct (Prior.mqttAttempt env attemptNumber w) as [[] w1 | w1 | f w1];
        cbn [world_of] in Hone.
      * destruct (IH (attemptNumber + 1) w1) as [Hmore _]. split; [lia | intros _ _; lia].
      * split; [lia | intros _ _; lia].
      * split; [lia | intros _ _; lia].
Qed.

(** X16.  The header-less revision has no cooldown.  Called with the
    WiFi associated, the session down and at least one attempt allowed,
    its [mqttMultiConnect] makes an attempt to connect at every call,
    however short the time since the last one. *)
Theorem Prior_mqttMultiConnect_no_cooldown (env : Env) (maxAttempts : Z) (w : World) :
  WiFi_status env (clock w) = WL_CONNECTED ->
  networkIndex w = 2112
  \/ (0 <= networkIndex w < Z.of_nat (length (mqttBrokerArray env))
      /\ networkIndex w < Z.of_nat (length (mqttPortArray env))) ->
  mqtt_connected env (clock w) = false ->
  1 <= maxAttempts ->
  (S (attempts (trace w))
   <= attempts (trace (world_of (Prior.mqttMultiConnect env maxAttempts w))))%nat.
Proof.
  intros Hup Hsafe Hdown Hmax.
  assert (Hfinish :
            forall W : World,
              clock W = clock w -> attempts (trace W) = attempts (trace w) ->
              forall k : unit -> M bool,
                (forall w1, attempts (trace (world_of (k tt w1))) = attempts (trace w1)) ->
                (S (attempts (trace w))
                 <= attempts
                      (trace
                         (world_of
                            (bind (Prior.mqttAttempts env (Z.to_nat maxAttempts) 0) k W))))%nat).
  { intros W Hclock Hcount k Hk. rewrite world_of_bind.
    destruct (Prior_mqttAttempts_counts env (Z.to_nat maxAttempts) 0 W) as [_ Hfirst].
    rewrite Hclock, Hcount in Hfirst. specialize (Hfirst Hdown).
    assert (Hsome : Z.to_nat maxAttempts <> O) by lia. specialize (Hfirst Hsome).
    destruct (Prior.mqttAttempts env (Z.to_nat maxAttempts) 0 W) as [[] w1 | w1 | f w1];
      cbn [world_of] in *; cbv beta iota; [rewrite Hk | | ]; exact Hfirst. }
  unfold Prior.mqttMultiConnect.
  rewrite world_of_bind. unfold Serial_Println at 1, emit at 1, store at 1.
  rewrite world_of_bind. unfold WiFi_Status at 1, load at 1.
  replace (clock (w <| trace := (trace w ++ [Serial_println (Str "Function mqttMultiConnect() has initiated.\n")])%list |>))
    with (clock w) by (destruct w; reflexivity).
  rewrite Hup. change (negb (WL_CONNECTED =? WL_CONNECTED)) with false. cbv iota.
  rewrite world_of_bind. unfold skip at 1, ret at 1.
  rewrite world_of_bind. unfold digitalWrite at 1.
  change (Prior.MCU_LED =? LED_PIN) with true. cbv iota. unfold store at 1.
  rewrite world_of_bind. unfold load at 1.
  match goal with
  | |- context [networkIndex ?W] =>
      replace (networkIndex W) with (networkIndex w) by (destruct w; reflexivity)
  end.
  match goal with
  | |- context [bind (if ?c then ?a else ?b) ?k ?W0] =>
      assert (Hannounce :
                exists W',
                  (if c then a else b) W0 = Returned tt W'
                  /\ clock W' = clock w
                  /\ attempts (trace W') = attempts (trace w))
  end.
  { destruct (Z.eqb_spec (networkIndex w) 2112) as [Hunset | Hset]; cbn [negb].
    - sketch_unfold. eexists. split; [reflexivity | ].
      destruct w; cbn -[attempts]. split; [reflexivity | ].
      repeat rewrite attempts_app. cbn. lia.
    - destruct Hsafe as [Hunset | [Hbroker Hport]]; [contradiction | ].
      sketch_unfold.
      match goal with
      | |- context [subscript "mqttBrokerArray" ?a ?i ?W] =>
          destruct (subscript_inside "mqttBrokerArray" a i W) as [broker ->];
          [exact Hbroker | ]
      end.
      match goal with
      | |- context [subscript "mqttPortArray" ?a ?i ?W] =>
          destruct (subscript_inside "mqttPortArray" a i W) as [port ->];
          [lia | ]
      end.
      eexists. split; [reflexivity | ].
      destruct w; cbn -[attempts]. split; [reflexivity | ].
      repeat rewrite attempts_app. cbn. lia. }
  destruct Hannounce as (W' & E & Hclock & Hcount).
  rewrite world_of_bind, E. cbv beta iota.
  apply Hfinish; [exact Hclock | exact Hcount | ].
  intros w1. sketch_unfold.
  destruct (mqtt_connected env (clock w1)); destruct w1; cbn -[attempts];
    rewrite attempts_app; cbn; lia.
Qed.

Lemma Prior_mqttMultiConnect_no_cooldown_witness :
  (S (attempts (trace recentAttempt))
   <= attempts (trace (world_of (Prior.mqttMultiConnect refusing 1 recentAttempt))))%nat.
Proof.
  apply (Prior_mqttMultiConnect_no_cooldown refusing 1 recentAttempt).
  - reflexivity.
  - right. vm_compute. split; [split; [discriminate | reflexivity] | reflexivity].
  - reflexivity.
  - lia.
Defined.

(** ** Commands that publish *)

(** [readTelemetry] returns or restarts: it has no undefined behaviour. *)
Lemma readTelemetry_defined (env : Env) (w : World) :
  match readTelemetry env w with Undefined _ _ => False | _ => True end.
Proof.
  unfold readTelemetry. sketch_unfold. destruct w; cbn.
  destruct (htu21d_read env clock0) as [[t h] | ]; [ | exact I].
  destruct (F32.gt t (F32.of_int (-30)) || F32.lt t (F32.of_int 90));
    destruct (F32.ge h (F32.of_int 0) || F32.le h (F32.of_int 100));
    cbn; unfold constant; cbn;
    repeat match goal with
           | |- context [if ?c then _ else _] => destruct c; cbn
           end; exact I.
Qed.

Lemma published_echoed (payload : string) : published (echoed payload) = [].
Proof.
  unfold echoed. induction (list_ascii_of_string payload) as [ | c rest IH];
    [reflexivity | exact IH].
Qed.

(** X17.  A [publishTelemetry] command is not counted.  When its handler
    returns, the aggregate message was handed to the broker,
    [publishCount] and [publishInterval] are as before, and
    [lastPublishTime] is the current clock, so that the next scheduled
    publish is a whole interval away.  When the handler ends in a restart,
    nothing was published.  The only undefined behaviour the command can
    run into is the overrun of the 20-byte buffer by the text of a stored
    temperature or humidity ([readTelemetry] stores every number the sensor
    returns). *)
Theorem publishTelemetry_command_not_counted (env : Env) (topic payload : string)
        (doc : JsonDocument) (w : World) :
  doc_command doc = Some "publishTelemetry" ->
  match onReceiveCallback env topic payload doc w with
  | Returned _ w' =>
      publishCount w' = publishCount w
      /\ publishInterval w' = publishInterval w
      /\ lastPublishTime w' = clock w'
      /\ In mqttTopic (published (trace w'))
  | Restarted w' => keeps_schedule w w'
  | Undefined f w' =>
      f = IndexOutOfBounds "buffer" 20
      /\ printable (tempC w') && printable (tempF w') && printable (humidity w') = false
      /\ publishCount w' = publishCount w
  end.
Proof.
  intros Hcommand. unfold onReceiveCallback. rewrite Hcommand.
  unfold bind at 1. unfold Serial_Printf at 1. unfold emit, store.
  unfold bind at 1. rewrite echo_trace.
  unfold bind at 1. unfold Serial_Println at 1. unfold emit, store.
  unfold bind at 1. unfold strcmp_is at 1. unfold ret.
  change (String.eqb "publishTelemetry" "publishTelemetry") with true. cbv iota.
  unfold bind at 1. unfold Serial_Println at 1. unfold emit, store.
  match goal with
  | |- context [bind (readTelemetry env) ?k ?W] => set (W0 := W)
  end.
  assert (Hstart : keeps_schedule w W0).
  { subst W0. destruct w; repeat split; cbn -[published];
      repeat rewrite published_app; rewrite published_echoed; cbn;
      rewrite ?app_nil_r; reflexivity. }
  pose proof (readTelemetry_keeps_schedule env W0) as Hread.
  pose proof (readTelemetry_defined env W0) as Hdefined.
  unfold bind at 1.
  destruct (readTelemetry env W0) as [[] w1 | w1 | f w1]; cbn [world_of] in Hread.
  - pose proof (keeps_schedule_trans _ _ _ Hstart Hread) as (_ & Hi & Hc & _).
    destruct (publishTelemetry_outcome env w1) as [Hend [rest Hsent]].
    unfold bind at 1.
    destruct (publishTelemetry env w1) as [[] w2 | w2 | f w2]; cbn [world_of] in *.
    + unfold Serial_Println, emit, store. rewrite Hend in *. clear Hend.
      destruct w1; cbn -[published] in *.
      repeat split; try congruence.
      rewrite published_app, Hsent.
      apply in_or_app. left. apply in_or_app. right. left. reflexivity.
    + contradiction.
    + destruct Hend as (-> & _ & Hbad & ->).
      destruct w1; cbn in *. repeat split; [exact Hbad | congruence].
  - exact (keeps_schedule_trans _ _ _ Hstart Hread).
  - contradiction.
Qed.

Lemma publishTelemetry_command_not_counted_witness :
  match onReceiveCallback commanded mqttCommandTopic "p"
          {| doc_command := Some "publishTelemetry"; doc_value := 0 |} online with
  | Returned _ w' =>
      publishCount w' = publishCount online
      /\ publishInterval w' = publishInterval online
      /\ lastPublishTime w' = clock w'
      /\ In mqttTopic (published (trace w'))
  | Restarted w' => keeps_schedule online w'
  | Undefined f w' =>
      f = IndexOutOfBounds "buffer" 20
      /\ printable (tempC w') && printable (tempF w') && printable (humidity w') = false
      /\ publishCount w' = publishCount online
  end.
Proof.
  apply (publishTelemetry_command_not_counted commanded mqttCommandTopic "p"
           {| doc_command := Some "publishTelemetry"; doc_value := 0 |} online).
  reflexivity.
Defined.

(** ** The client id *)

Lemma length_append (a b : string) :
  String.length (a ++ b) = (String.length a + String.length b)%nat.
Proof. induction a as [ | c a IH]; cbn; [reflexivity | rewrite IH; reflexivity]. Qed.

Lemma snprintf_fits (size : nat) (text : string) :
  (String.length text < size)%nat -> snprintf size text = text.
Proof.
  unfold snprintf. intros H.
  assert (Hle : (String.length text <= size - 1)%nat) by lia. clear H.
  revert Hle. generalize (size - 1)%nat as n.
  induction text as [ | c text IH]; intros n Hle.
  - destruct n; reflexivity.
  - destruct n as [ | n]; [cbn in Hle; lia | ].
    cbn. rewrite IH; [reflexivity | cbn in Hle; lia].
Qed.

Lemma decimal3_length (z : Z) :
  0 <= z < 1000 -> String.length (decimal3 z) = 3%nat.
Proof.
  intros H.
  assert (Hall : forallb (fun n => Nat.eqb (String.length (decimal3 (Z.of_nat n))) 3)
                         (seq 0 1000) = true) by (vm_compute; reflexivity).
  rewrite forallb_forall in Hall.
  specialize (Hall (Z.to_nat z)).
  rewrite Z2Nat.id in Hall by lia.
  apply Nat.eqb_eq, Hall, in_seq. lia.
Qed.

(** X18.  The client id of an attempt to connect is whole: for a MAC
    address of at most 17 characters (the length of [WiFi.macAddress()])
    and a suffix that [random( 999 )] can return, the 22-byte buffer holds
    the address, the dash and the three digits of the suffix, and
    [mqttAttempt] announces exactly that id. *)
Theorem clientId_is_whole (env : Env) (attemptNumber maxAttempts : Z) (w : World) :
  (String.length (macAddress w) <= 17)%nat ->
  0 <= random env 999 (clock w) < 999 ->
  String.length (decimal3 (random env 999 (clock w))) = 3%nat
  /\ In (Serial_printf "Connecting with client ID '%s'.\n"
           [Str (macAddress w ++ "-" ++ decimal3 (random env 999 (clock w)))])
        (trace (world_of (mqttAttempt env attemptNumber maxAttempts w))).
Proof.
  intros Hmac Hrandom.
  assert (Hdigits : String.length (decimal3 (random env 999 (clock w))) = 3%nat)
    by (apply decimal3_length; lia).
  split; [exact Hdigits | ].
  assert (Hfits : snprintf 22 (macAddress w ++ "-" ++ decimal3 (random env 999 (clock w)))
                  = macAddress w ++ "-" ++ decimal3 (random env 999 (clock w))).
  { apply snprintf_fits. rewrite !length_append, Hdigits. cbn. lia. }
  unfold mqttAttempt. sketch_unfold.
  destruct w; cbn -[snprintf decimal3 append] in Hfits |- *.
  rewrite Hfits.
  destruct (mqtt_connect env _ clock0); (cbn -[In]; unfold constant; cbn -[In]).
  - destruct (mqtt_setBufferSize env BUFFER_SIZE _);
      (cbn -[In]; unfold constant; cbn -[In]).
    + destruct (mqtt_subscribe env mqttCommandTopic _); cbn -[In];
        repeat rewrite <- app_assoc; apply in_or_app; right; left; reflexivity.
    + repeat rewrite <- app_assoc. apply in_or_app; right; left; reflexivity.
  - destruct (mqtt_state env _ =? -4); [ | destruct (mqtt_state env _ =? 2)];
      destruct (maxAttempts >? 1); cbn -[In];
      repeat rewrite <- app_assoc; apply in_or_app; right; left; reflexivity.
Qed.

Lemma clientId_is_whole_witness :
  String.length (decimal3 (random refusing 999
                             (clock (recentAttempt <| macAddress := "5C:CF:7F:00:11:22" |>))))
  = 3%nat
  /\ In (Serial_printf "Connecting with client ID '%s'.\n" [Str "5C:CF:7F:00:11:22-007"])
        (trace (world_of (mqttAttempt refusing 0 1
                            (recentAttempt <| macAddress := "5C:CF:7F:00:11:22" |>)))).
Proof.
  refine (clientId_is_whole refusing 0 1
            (recentAttempt <| macAddress := "5C:CF:7F:00:11:22" |>) _ _).
  - vm_compute. lia.
  - vm_compute. split; [discriminate | reflexivity].
Defined.

(** ** The progress of an update over the air *)

(** X19.  The percentage that the progress callback of [configureOTA]
    prints, for a progress that does not exceed the total: an update of
    fewer than 100 bytes divides by zero; otherwise the percentage is
    defined and at most 199, it is at most 100 for an update of at least
    10000 bytes, and at the end of the update it is at least 100. *)
Theorem otaProgress_percentage (progress total : Z) :
  0 <= progress <= total ->
  (total < 100 -> otaProgress progress total = None)
  /\ (100 <= total ->
      exists percent,
        otaProgress progress total = Some percent
        /\ 0 <= percent <= 199
        /\ (10000 <= total -> percent <= 100)
        /\ (progress = total -> 100 <= percent)).
Proof.
  intros Hrange. unfold otaProgress. cbv zeta. split.
  - intros Hsmall. rewrite Z.div_small by lia. reflexivity.
  - intros Hlarge.
    assert (Hq : 1 <= total / 100) by (apply Z.div_le_lower_bound; lia).
    pose proof (Z.mul_div_le total 100 ltac:(lia)) as Hlow.
    pose proof (Z.mul_succ_div_gt total 100 ltac:(lia)) as Hhigh.
    destruct (Z.eqb_spec (total / 100) 0) as [E | _]; [lia | ].
    exists (progress / (total / 100)). split; [reflexivity | ].
    set (q := total / 100) in *.
    split; [ | split].
    + split; [apply Z.div_pos; lia | ].
      apply Z.lt_succ_r. apply Z.div_lt_upper_bound; [lia | ]. nia.
    + intros Hbig. assert (100 <= q) by (subst q; apply Z.div_le_lower_bound; lia).
      apply Z.lt_succ_r. apply Z.div_lt_upper_bound; [lia | ]. nia.
    + intros ->. apply Z.div_le_lower_bound; [lia | ]. lia.
Qed.

Lemma otaProgress_percentage_witness :
  (199 < 100 -> otaProgress 199 199 = None)
  /\ (100 <= 199 ->
      exists percent,
        otaProgress 199 199 = Some percent
        /\ 0 <= percent <= 199
        /\ (10000 <= 199 -> percent <= 100)
        /\ (199 = 199 -> 100 <= percent)).
Proof. apply (otaProgress_percentage 199 199). lia. Defined.

(** * The interval command and the publish timer *)

(** ** A publish timer that fires *)



(** The same for the header-less revision. *)






(** ** The interval command *)





(** * The sentinel of [networkIndex] over whole runs *)

(** ** Computations that read no array at the sentinel *)

Lemma preserves_bind {A B : Type} (P Q R : World -> Prop) (m : M A) (k : A -> M B) :
  preserves P Q m -> (forall a, preserves Q R (k a)) -> preserves P R (bind m k).
Proof.
  intros Hm Hk w Hw. unfold bind. specialize (Hm w Hw).
  destruct (m w) as [a w1 | w1 | f w1]; [apply Hk; exact Hm | exact I | exact Hm].
Qed.

Lemma preserves_weaken {A : Type} (P P' Q Q' : World -> Prop) (m : M A) :
  preserves P Q m -> (forall w, P' w -> P w) -> (forall w, Q w -> Q' w) ->
  preserves P' Q' m.
Proof.
  intros Hm Hpre Hpost w Hw. specialize (Hm w (Hpre w Hw)).
  destruct (m w); auto.
Qed.

Lemma preserves_ret {A : Type} (P : World -> Prop) (a : A) : preserves P P (ret a).
Proof. intros w Hw. exact Hw. Qed.

Lemma preserves_load {A : Type} (P : World -> Prop) (global : World -> A) :
  preserves P P (load global).
Proof. intros w Hw. exact Hw. Qed.

Lemma preserves_store (P Q : World -> Prop) (f : World -> World) :
  (forall w, P w -> Q (f w)) -> preserves P Q (store f).
Proof. intros H w Hw. apply H. exact Hw. Qed.

Lemma preserves_restart {A : Type} (P Q : World -> Prop) :
  preserves P Q (@ESP_restart A).
Proof. intros w Hw. exact I. Qed.

Lemma preserves_undefined {A : Type} (P Q : World -> Prop) (f : fault) :
  ~ at_sentinel f -> preserves P Q (@undefined A f).
Proof. intros H w Hw. exact H. Qed.

Lemma preserves_subscript {A : Type} (P : World -> Prop) name (a : list A) i :
  i <> 2112 -> preserves P P (subscript name a i).
Proof.
  intros Hi w Hw. unfold subscript.
  destruct (nth_error a (Z.to_nat i)); [exact Hw | exact Hi].
Qed.

Lemma preserves_subscripts {A B : Type} (P : World -> Prop) env
      nameA (a : list A) nameB (b : list B) i :
  i <> 2112 -> preserves P P (subscripts env nameA a nameB b i).
Proof.
  intros Hi. unfold subscripts.
  destruct (rightToLeft env);
    (eapply preserves_bind; [apply preserves_subscript; exact Hi | intros ? ]);
    (eapply preserves_bind; [apply preserves_subscript; exact Hi | intros ? ]);
    apply preserves_ret.
Qed.

Lemma preserves_update (inv : World -> Prop) (f : World -> World) :
  stable inv -> (forall w, networkIndex (f w) = networkIndex w) ->
  preserves inv inv (store f).
Proof. intros Hinv H. apply preserves_store. intros w Hw. exact (Hinv w (f w) (H w) Hw). Qed.

Lemma stable_anywhere : stable anywhere.
Proof. intros w w' _ _. exact I. Qed.

Lemma stable_linked (env : Env) : stable (linked env).
Proof. intros w w' H. unfold linked. rewrite H. exact (fun x => x). Qed.

Lemma linked_not_sentinel (env : Env) (w : World) :
  configured env -> linked env w -> networkIndex w <> 2112.
Proof. intros ((_ & H) & _). unfold linked. lia. Qed.

(** A read of [networkIndex] in a linked world does not give the sentinel. *)
Lemma preserves_index {A : Type} (env : Env) (Q : World -> Prop) (k : Z -> M A) :
  configured env ->
  (forall index, index <> 2112 -> preserves (linked env) Q (k index)) ->
  preserves (linked env) Q (bind (load networkIndex) k).
Proof.
  intros Hconfigured Hk w Hw. unfold bind, load.
  apply (Hk (networkIndex w) (linked_not_sentinel env w Hconfigured Hw) w Hw).
Qed.

Create HintDb safety.
#[local] Hint Resolve stable_anywhere stable_linked : safety.

(** The statements of the sketch, down to the reads and writes of the
    world. *)
Ltac statements :=
  cbv zeta;
  unfold Serial_Println, Serial_Print, Serial_PrintNum, Serial_PrintlnNum, Serial_Printf,
    mqttClient_publish, mqttClient_connected, mqttClient_state, WiFi_Status,
    millis, delay, blocking, digitalWrite, digitalRead, dtostrf, emit, skip.

(** One statement after the other. *)
Ltac safe :=
  lazymatch goal with
  | |- preserves _ _ (bind (load networkIndex) _) =>
      first [ apply preserves_index; [eassumption | intros ? ?; cbv beta; safe]
            | eapply preserves_bind; [safe | intro; cbv beta; safe] ]
  | |- preserves _ _ (bind _ _) => eapply preserves_bind; [safe | intro; cbv beta; safe]
  | |- preserves _ _ (ret _) => apply preserves_ret
  | |- preserves _ _ (load _) => apply preserves_load
  | |- preserves _ _ (store _) =>
      first [ apply preserves_update; [solve [eauto with safety] | intros []; reflexivity]
            | solve [eauto with safety] ]
  | |- preserves _ _ ESP_restart => apply preserves_restart
  | |- preserves _ _ (undefined _) =>
      apply preserves_undefined; cbn; first [exact (fun x => x) | discriminate]
  | |- preserves _ _ (subscript _ _ _) =>
      apply preserves_subscript; first [assumption | lia]
  | |- preserves _ _ (subscripts _ _ _ _ _ _) =>
      apply preserves_subscripts; first [assumption | lia]
  | |- preserves _ _ (if ?c then _ else _) => destruct c; safe
  | |- preserves _ _ (match ?x with _ => _ end) => destruct x; safe
  | |- _ => solve [eauto with safety]
  end.

Section Stable.

Variable env : Env.
Variable inv : World -> Prop.
Hypothesis inv_stable : stable inv.

Lemma toggleLED_safe : preserves inv inv toggleLED.
Proof. unfold toggleLED. statements. safe. Qed.

Lemma readTelemetry_safe : preserves inv inv (readTelemetry env).
Proof. unfold readTelemetry. statements. safe. Qed.

Lemma checkForSSID_safe ssidName : preserves inv inv (checkForSSID env ssidName).
Proof. unfold checkForSSID. statements. safe. Qed.

Lemma awaitConnection_safe turns start : preserves inv inv (awaitConnection env turns start).
Proof.
  induction turns as [ | turns IH]; cbn [awaitConnection]; statements; safe.
Qed.

Lemma mqttAttempt_safe attemptNumber maxAttempts :
  preserves inv inv (mqttAttempt env attemptNumber maxAttempts).
Proof. unfold mqttAttempt. statements. safe. Qed.

Lemma mqttAttempts_safe remaining attemptNumber maxAttempts :
  preserves inv inv (mqttAttempts env remaining attemptNumber maxAttempts).
Proof.
  revert attemptNumber.
  induction remaining as [ | remaining IH]; intros attemptNumber;
    cbn [mqttAttempts]; statements; [safe | ].
  pose proof (mqttAttempt_safe attemptNumber maxAttempts).
  pose proof (IH (attemptNumber + 1)).
  safe.
Qed.

Lemma publishField_safe topic message : preserves inv inv (publishField env topic message).
Proof. unfold publishField. statements. safe. Qed.

#[local] Hint Resolve toggleLED_safe readTelemetry_safe checkForSSID_safe
  awaitConnection_safe mqttAttempt_safe mqttAttempts_safe publishField_safe : safety.

Lemma publishTelemetry_safe : preserves inv inv (publishTelemetry env).
Proof. unfold publishTelemetry. statements. safe. Qed.

Lemma echo_safe payload : preserves inv inv (echo payload).
Proof. induction payload as [ | c rest IH]; cbn [echo]; statements; safe. Qed.

Lemma strcmp_is_safe command name : preserves inv inv (strcmp_is command name).
Proof. unfold strcmp_is. safe. Qed.

Lemma setupHTU21D_safe : preserves inv inv (setupHTU21D env).
Proof. unfold setupHTU21D. statements. safe. Qed.

Lemma configureOTA_safe : preserves inv inv configureOTA.
Proof. unfold configureOTA. statements. safe. Qed.

Lemma indicatorTimer_safe : preserves inv inv (indicatorTimer env).
Proof. unfold indicatorTimer, updateIndicator. statements. safe. Qed.

Lemma Prior_publishTelemetry_safe : preserves inv inv (Prior.publishTelemetry env).
Proof. unfold Prior.publishTelemetry. statements. safe. Qed.

Lemma Prior_setupHTU21D_safe : preserves inv inv (Prior.setupHTU21D env).
Proof. unfold Prior.setupHTU21D. statements. safe. Qed.

Lemma Prior_configureOTA_safe : preserves inv inv Prior.configureOTA.
Proof. unfold Prior.configureOTA. statements. safe. Qed.

Lemma Prior_indicatorTimer_safe : preserves inv inv (Prior.indicatorTimer env).
Proof. unfold Prior.indicatorTimer, Prior.updateIndicator. statements. safe. Qed.

End Stable.

#[local] Hint Resolve toggleLED_safe readTelemetry_safe checkForSSID_safe
  awaitConnection_safe mqttAttempt_safe mqttAttempts_safe publishField_safe
  publishTelemetry_safe echo_safe strcmp_is_safe setupHTU21D_safe configureOTA_safe
  indicatorTimer_safe Prior_publishTelemetry_safe Prior_setupHTU21D_safe
  Prior_configureOTA_safe Prior_indicatorTimer_safe : safety.

Section Linked.

Variable env : Env.
Hypothesis Hconfigured : configured env.

(** The loop of [wifiMultiConnect] ends in an association, which sets
    [networkIndex], or runs past the end of the arrays: its bound is four
    times their length. *)
Lemma wifiMultiConnect_for_links :
  forall (remaining : nat) (i : Z),
    0 <= i <= Z.of_nat (length (wifiSsidArray env)) ->
    Z.of_nat (length (wifiSsidArray env)) - i < Z.of_nat remaining ->
    preserves anywhere (linked env) (wifiMultiConnect_for env remaining i).
Proof.
  destruct Hconfigured as ((_ & Hfew) & _).
  induction remaining as [ | remaining IH]; intros i Hi Hremaining; [lia | ].
  cbn [wifiMultiConnect_for].
  destruct (Z.eq_dec i (Z.of_nat (length (wifiSsidArray env)))) as [Hend | Hinside].
  - intros w _. unfold bind at 1. rewrite subscript_outside by lia.
    cbn [at_sentinel]. lia.
  - assert (Hnext : preserves anywhere (linked env)
                      (wifiMultiConnect_for env remaining (i + 1)))
      by (apply IH; lia).
    assert (Hset : preserves anywhere (linked env)
                     (store (fun w => w <| networkIndex := i |>))).
    { apply preserves_store. intros [] _. unfold linked. cbn -[Z.of_nat]. unfold constant. lia. }
    statements. safe.
Qed.

Lemma wifiMultiConnect_links : preserves anywhere (linked env) (wifiMultiConnect env).
Proof.
  pose proof Hconfigured as ((Hsome & _) & _).
  assert (Hloop : preserves anywhere (linked env)
                    (wifiMultiConnect_for env
                       (Z.to_nat (sizeof_pointer_array (wifiSsidArray env))) 0)).
  { apply wifiMultiConnect_for_links; unfold sizeof_pointer_array, SIZEOF_POINTER; lia. }
  unfold wifiMultiConnect. statements. safe.
Qed.

Lemma wifiMultiConnect_relinks : preserves (linked env) (linked env) (wifiMultiConnect env).
Proof.
  apply (preserves_weaken anywhere _ (linked env)); [apply wifiMultiConnect_links | | ];
    intros w Hw; [exact I | exact Hw].
Qed.

#[local] Hint Resolve wifiMultiConnect_links wifiMultiConnect_relinks : safety.

Lemma mqttMultiConnect_safe maxAttempts :
  preserves (linked env) (linked env) (mqttMultiConnect env maxAttempts).
Proof. unfold mqttMultiConnect. statements. safe. Qed.

Lemma printTelemetry_safe : preserves (linked env) (linked env) (printTelemetry env).
Proof. unfold printTelemetry. statements. safe. Qed.

Lemma publishStats_safe : preserves (linked env) (linked env) (publishStats env).
Proof. unfold publishStats. statements. safe. Qed.

#[local] Hint Resolve mqttMultiConnect_safe printTelemetry_safe publishStats_safe : safety.

Lemma onReceiveCallback_safe topic payload doc :
  preserves (linked env) (linked env) (onReceiveCallback env topic payload doc).
Proof. unfold onReceiveCallback. statements. safe. Qed.

#[local] Hint Resolve onReceiveCallback_safe : safety.

Lemma loop_safe : preserves (linked env) (linked env) (loop env).
Proof.
  unfold loop, mqttClient_loop, pollTimer, publishTimer, pollTelemetry, publishDue.
  statements. safe.
Qed.

Lemma setup_links : preserves anywhere (linked env) (setup env).
Proof. unfold setup. statements. safe. Qed.

Lemma iterations_safe (turn : M unit) (gaps : list Z) :
  preserves (linked env) (linked env) turn ->
  preserves (linked env) (linked env) (iterations turn gaps).
Proof.
  intros Hturn. induction gaps as [ | gap gaps IH]; cbn [iterations]; statements; safe.
Qed.

Lemma run_safe (gaps : list Z) : preserves anywhere (linked env) (run env gaps).
Proof.
  pose proof setup_links. pose proof (iterations_safe (loop env) gaps loop_safe).
  unfold run. safe.
Qed.

(** The header-less revision. *)

Lemma Prior_printTelemetry_safe :
  preserves (linked env) (linked env) (Prior.printTelemetry env).
Proof. unfold Prior.printTelemetry. statements. safe. Qed.

Lemma Prior_publishStats_safe :
  preserves (linked env) (linked env) (Prior.publishStats env).
Proof. unfold Prior.publishStats. statements. safe. Qed.

#[local] Hint Resolve Prior_printTelemetry_safe Prior_publishStats_safe : safety.

Lemma Prior_mqttAttempts_safe remaining attemptNumber :
  preserves (linked env) (linked env) (Prior.mqttAttempts env remaining attemptNumber).
Proof.
  revert attemptNumber.
  induction remaining as [ | remaining IH]; intros attemptNumber;
    cbn [Prior.mqttAttempts]; unfold Prior.mqttAttempt; statements; [safe | ].
  pose proof (IH (attemptNumber + 1)).
  safe.
Qed.

#[local] Hint Resolve Prior_mqttAttempts_safe : safety.

Lemma Prior_mqttMultiConnect_safe maxAttempts :
  preserves (linked env) (linked env) (Prior.mqttMultiConnect env maxAttempts).
Proof. unfold Prior.mqttMultiConnect. statements. safe. Qed.

Lemma Prior_onReceiveCallback_safe topic payload doc :
  preserves (linked env) (linked env) (Prior.onReceiveCallback env topic payload doc).
Proof. unfold Prior.onReceiveCallback. statements. safe. Qed.

#[local] Hint Resolve Prior_mqttMultiConnect_safe Prior_onReceiveCallback_safe : safety.

Lemma Prior_loop_safe : preserves (linked env) (linked env) (Prior.loop env).
Proof.
  unfold Prior.loop, Prior.mqttClient_loop, Prior.pollTimer, Prior.publishTimer,
    Prior.pollTelemetry, Prior.publishDue.
  statements. safe.
Qed.

Lemma Prior_setup_links : preserves anywhere (linked env) (Prior.setup env).
Proof. unfold Prior.setup. statements. safe. Qed.

Lemma Prior_run_safe (gaps : list Z) :
  preserves anywhere (linked env) (Prior.run env gaps).
Proof.
  pose proof Prior_setup_links.
  pose proof (iterations_safe (Prior.loop env) gaps Prior_loop_safe).
  unfold Prior.run. safe.
Qed.

End Linked.

(** X21.  In a configuration with at least one network and fewer than 2112
    of them the sentinel is out of reach.  In every run of the device,
    [setup()] followed by any number of iterations of [loop()] any time
    apart, from any state of the globals, no array is read at the sentinel
    2112, and whenever the run comes back [networkIndex] is the index of a
    configured network; this holds of both revisions.  The reason is
    [wifiMultiConnect], which [setup()] runs before anything reads an array
    at [networkIndex]: with its bound of four times the length of the
    arrays it associates and sets [networkIndex], or it reads past the end
    of the arrays; it never returns without having set [networkIndex]. *)
Lemma configured_runs_avoid_the_sentinel (env : Env) :
  configured env ->
  (forall gaps, preserves anywhere (linked env) (run env gaps))
  /\ (forall gaps, preserves anywhere (linked env) (Prior.run env gaps))
  /\ preserves anywhere (linked env) (wifiMultiConnect env).
Proof.
  intros Hconfigured.
  split; [intros gaps; apply run_safe; exact Hconfigured | ].
  split; [intros gaps; apply Prior_run_safe; exact Hconfigured | ].
  apply wifiMultiConnect_links; exact Hconfigured.
Qed.

Lemma configured_runs_avoid_the_sentinel_witness :
  (forall gaps, preserves anywhere (linked atHome) (run atHome gaps))
  /\ (forall gaps, preserves anywhere (linked atHome) (Prior.run atHome gaps))
  /\ preserves anywhere (linked atHome) (wifiMultiConnect atHome).
Proof.
  apply (configured_runs_avoid_the_sentinel atHome).
  unfold configured. cbn. lia.
Defined.

